(** * A shallow embedding of the AUTOSAR Designer model layer

    Sources embedded here:
    - [src/model/elements.py]: the entity dataclasses, their [to_dict] /
      [from_dict] codecs, the [Project] lookup helpers and
      [Project.validate_connection];
    - [src/model/multifile.py]: [Module], [MasterProject], [ModuleReference]
      and the [MultiFileProject] manager (loading, merging, caching);
    - [src/codegen/generator.py]: [C_TYPE_MAP] and [c_type_filter];
    - [src/gui/main_window.py]: the component branch of [_delete_item].

    Python values handled by the codecs (the documents produced by
    [to_dict] and read by [from_dict] and [yaml.safe_load]) are the
    inductive [Value]; Python exceptions are the inductive [Exc]; code that
    may raise returns a [result]. *)

From Stdlib Require Import String Ascii List ZArith Bool Lia.
From Stdlib Require Import Floats.
From Stdlib Require Import Permutation.
Import ListNotations.
Open Scope string_scope.
Set Warnings "-register-all".

(* ------------------------------------------------------------------ *)
(** ** Python values, exceptions and the error monad *)

(** A Python float. *)
Definition pyfloat := PrimFloat.float.

(** The plain data a dict produced by [to_dict] (or by [yaml.safe_load])
    holds.  A dict is an association list in insertion order. *)
Inductive Value : Type :=
| VNone
| VBool (b : bool)
| VInt (z : Z)
| VFloat (f : pyfloat)
| VStr (s : string)
| VList (l : list Value)
| VDict (d : list (string * Value)).

Definition dict := list (string * Value).

(** The Python exceptions the embedded code can raise. *)
Inductive Exc : Type :=
| KeyError (key : string)
| ValueError (msg : string)
| TypeError (msg : string)
| YAMLError (path : string)
| OSError (path : string).

Inductive result (A : Type) : Type :=
| Ok (a : A)
| Err (e : Exc).
Arguments Ok {A} a.
Arguments Err {A} e.

Definition bind {A B} (m : result A) (k : A -> result B) : result B :=
  match m with
  | Ok a => k a
  | Err e => Err e
  end.

Notation "x <- m ;; k" := (bind m (fun x => k))
  (at level 61, m at next level, right associativity).

Definition is_err {A} (r : result A) : bool :=
  match r with Err _ => true | Ok _ => false end.

(** [[f(x) for x in l]], raising at the first element that raises. *)
Fixpoint mapM {A B} (f : A -> result B) (l : list A) : result (list B) :=
  match l with
  | [] => Ok []
  | x :: xs => y <- f x ;; ys <- mapM f xs ;; Ok (y :: ys)
  end.

(** Dict access.  [dlookup] finds the value stored under a key. *)
Fixpoint dlookup (k : string) (d : dict) : option Value :=
  match d with
  | [] => None
  | (k', v) :: d' => if String.eqb k k' then Some v else dlookup k d'
  end.

(** [data[k]] *)
Definition dindex (d : dict) (k : string) : result Value :=
  match dlookup k d with Some v => Ok v | None => Err (KeyError k) end.

(** [data.get(k, default)] *)
Definition dget (d : dict) (k : string) (default : Value) : Value :=
  match dlookup k d with Some v => v | None => default end.

(** The decoders below access their argument as a dict; anything else
    raises in Python ([TypeError] / [AttributeError]). *)
Definition as_dict (v : Value) : result dict :=
  match v with VDict d => Ok d | _ => Err (TypeError "not a dict") end.

(** The dataclasses carry type annotations that Python does not check; the
    embedding keeps the annotated type of each field, so a document value
    of another type is refused with a [TypeError]. *)
Definition as_str (v : Value) : result string :=
  match v with VStr s => Ok s | _ => Err (TypeError "str expected") end.

Definition as_opt_str (v : Value) : result (option string) :=
  match v with
  | VNone => Ok None
  | VStr s => Ok (Some s)
  | _ => Err (TypeError "Optional[str] expected")
  end.

Definition as_int (v : Value) : result Z :=
  match v with VInt z => Ok z | _ => Err (TypeError "int expected") end.

Definition as_bool (v : Value) : result bool :=
  match v with VBool b => Ok b | _ => Err (TypeError "bool expected") end.

Definition as_list (v : Value) : result (list Value) :=
  match v with VList l => Ok l | _ => Err (TypeError "list expected") end.

(** A Python number field ([factor], [offset], [min_value], ...): YAML
    gives an int or a float and the dataclass stores it as it is. *)
Inductive pynum : Type :=
| NInt (z : Z)
| NFloat (f : pyfloat).

Definition num_to_value (n : pynum) : Value :=
  match n with NInt z => VInt z | NFloat f => VFloat f end.

Definition as_num (v : Value) : result pynum :=
  match v with
  | VInt z => Ok (NInt z)
  | VFloat f => Ok (NFloat f)
  | _ => Err (TypeError "number expected")
  end.

Definition opt_num_to_value (n : option pynum) : Value :=
  match n with Some x => num_to_value x | None => VNone end.

Definition as_opt_num (v : Value) : result (option pynum) :=
  match v with
  | VNone => Ok None
  | _ => n <- as_num v ;; Ok (Some n)
  end.

Definition opt_str_to_value (s : option string) : Value :=
  match s with Some x => VStr x | None => VNone end.

(** [(m["name"], m[k2])] for a two-field member record. *)
Definition pair_from_dict {B} (k2 : string) (as_b : Value -> result B)
    (v : Value) : result (string * B) :=
  m <- as_dict v ;;
  n <- dindex m "name" ;; n <- as_str n ;;
  t <- dindex m k2 ;; t <- as_b t ;;
  Ok (n, t).

(* ------------------------------------------------------------------ *)
(** ** Enumerations (closed tag sets; [Enum(value)] raises [ValueError]) *)

(** [Enum(v)]: the member whose value is [v], a [ValueError] otherwise. *)
Definition enum_of_value {T} (members : list T) (value : T -> string)
    (err : string) (v : Value) : result T :=
  match v with
  | VStr s =>
      match find (fun x => String.eqb (value x) s) members with
      | Some x => Ok x
      | None => Err (ValueError err)
      end
  | _ => Err (ValueError err)
  end.

Module PortDirection.
Inductive t := PROVIDED | REQUIRED.
Definition value (x : t) : string :=
  match x with PROVIDED => "provided" | REQUIRED => "required" end.
Definition all : list t := [PROVIDED; REQUIRED].
Definition tags : list string := map value all.
Definition of_value (v : Value) : result t :=
  enum_of_value all value "is not a valid PortDirection" v.
Definition eq_dec (x y : t) : {x = y} + {x <> y}.
Proof. decide equality. Defined.
End PortDirection.

Module InterfaceType.
Inductive t := SENDER_RECEIVER | CLIENT_SERVER.
Definition value (x : t) : string :=
  match x with
  | SENDER_RECEIVER => "sender_receiver"
  | CLIENT_SERVER => "client_server"
  end.
Definition all : list t := [SENDER_RECEIVER; CLIENT_SERVER].
Definition tags : list string := map value all.
Definition of_value (v : Value) : result t :=
  enum_of_value all value "is not a valid InterfaceType" v.
End InterfaceType.

Module BaseDataType.
Inductive t := UINT8 | UINT16 | UINT32 | UINT64 | INT8 | INT16 | INT32
             | INT64 | FLOAT32 | FLOAT64 | BOOLEAN.
Definition value (x : t) : string :=
  match x with
  | UINT8 => "uint8" | UINT16 => "uint16" | UINT32 => "uint32"
  | UINT64 => "uint64" | INT8 => "int8" | INT16 => "int16"
  | INT32 => "int32" | INT64 => "int64" | FLOAT32 => "float32"
  | FLOAT64 => "float64" | BOOLEAN => "boolean"
  end.
Definition all : list t :=
  [UINT8; UINT16; UINT32; UINT64; INT8; INT16; INT32; INT64; FLOAT32;
   FLOAT64; BOOLEAN].
Definition tags : list string := map value all.
Definition of_value (v : Value) : result t :=
  enum_of_value all value "is not a valid BaseDataType" v.
End BaseDataType.

Module AppDataCategory.
Inductive t := VALUE | ARRAY | STRUCTURE | ENUM.
Definition value (x : t) : string :=
  match x with
  | VALUE => "value" | ARRAY => "array" | STRUCTURE => "structure"
  | ENUM => "enum"
  end.
Definition all : list t := [VALUE; ARRAY; STRUCTURE; ENUM].
Definition tags : list string := map value all.
Definition of_value (v : Value) : result t :=
  enum_of_value all value "is not a valid AppDataCategory" v.
End AppDataCategory.

Module ArgumentDirection.
Inductive t := IN | OUT | INOUT.
Definition value (x : t) : string :=
  match x with IN => "in" | OUT => "out" | INOUT => "inout" end.
Definition all : list t := [IN; OUT; INOUT].
Definition tags : list string := map value all.
Definition of_value (v : Value) : result t :=
  enum_of_value all value "is not a valid ArgumentDirection" v.
End ArgumentDirection.

(* ------------------------------------------------------------------ *)
(** ** Entities and their dict codecs ([src/model/elements.py])

    Every [from_dict] reads [data.get("uid", str(uuid.uuid4())[:8])]; the
    random fresh identifier is the section variable [new_uid]. *)

Module CompuMethod.
Record t := mk {
  name : string; factor : pynum; offset : pynum; unit : string;
  description : string; uid : string }.
Definition to_dict (x : t) : Value :=
  VDict [("name", VStr (name x)); ("factor", num_to_value (factor x));
         ("offset", num_to_value (offset x)); ("unit", VStr (unit x));
         ("description", VStr (description x)); ("uid", VStr (uid x))].
Section Decode.
Variable new_uid : string.
Definition from_dict (v : Value) : result t :=
  data <- as_dict v ;;
  n <- dindex data "name" ;; n <- as_str n ;;
  f <- as_num (dget data "factor" (VFloat 1.0%float)) ;;
  o <- as_num (dget data "offset" (VFloat 0.0%float)) ;;
  u <- as_str (dget data "unit" (VStr "")) ;;
  d <- as_str (dget data "description" (VStr "")) ;;
  i <- as_str (dget data "uid" (VStr new_uid)) ;;
  Ok (mk n f o u d i).
End Decode.
End CompuMethod.

Module ApplicationDataType.
Record t := mk {
  name : string; category : AppDataCategory.t;
  compu_method_uid : option string;
  min_value : option pynum; max_value : option pynum;
  init_value : string; description : string; array_size : Z;
  element_type_uid : option string;
  struct_members : list (string * string);
  enum_literals : list (string * Z);
  uid : string }.
Definition to_dict (x : t) : Value :=
  VDict [("name", VStr (name x));
         ("category", VStr (AppDataCategory.value (category x)));
         ("compu_method_uid", opt_str_to_value (compu_method_uid x));
         ("min_value", opt_num_to_value (min_value x));
         ("max_value", opt_num_to_value (max_value x));
         ("init_value", VStr (init_value x));
         ("description", VStr (description x));
         ("array_size", VInt (array_size x));
         ("element_type_uid", opt_str_to_value (element_type_uid x));
         ("struct_members",
           VList (map (fun m => VDict [("name", VStr (fst m));
                                       ("type_uid", VStr (snd m))])
                      (struct_members x)));
         ("enum_literals",
           VList (map (fun e => VDict [("name", VStr (fst e));
                                       ("value", VInt (snd e))])
                      (enum_literals x)));
         ("uid", VStr (uid x))].
Section Decode.
Variable new_uid : string.
Definition from_dict (v : Value) : result t :=
  data <- as_dict v ;;
  sm <- as_list (dget data "struct_members" (VList [])) ;;
  sm <- mapM (pair_from_dict "type_uid" as_str) sm ;;
  el <- as_list (dget data "enum_literals" (VList [])) ;;
  el <- mapM (pair_from_dict "value" as_int) el ;;
  n <- dindex data "name" ;; n <- as_str n ;;
  c <- AppDataCategory.of_value (dget data "category" (VStr "value")) ;;
  cm <- as_opt_str (dget data "compu_method_uid" VNone) ;;
  mn <- as_opt_num (dget data "min_value" VNone) ;;
  mx <- as_opt_num (dget data "max_value" VNone) ;;
  iv <- as_str (dget data "init_value" (VStr "0")) ;;
  d <- as_str (dget data "description" (VStr "")) ;;
  sz <- as_int (dget data "array_size" (VInt 1)) ;;
  et <- as_opt_str (dget data "element_type_uid" VNone) ;;
  i <- as_str (dget data "uid" (VStr new_uid)) ;;
  Ok (mk n c cm mn mx iv d sz et sm el i).
End Decode.
End ApplicationDataType.

Module ImplementationDataType.
Record t := mk {
  name : string; base_type : BaseDataType.t; is_array : bool;
  array_size : Z; is_struct : bool;
  struct_members : list (string * string);
  description : string; uid : string }.
Definition to_dict (x : t) : Value :=
  VDict [("name", VStr (name x));
         ("base_type", VStr (BaseDataType.value (base_type x)));
         ("is_array", VBool (is_array x));
         ("array_size", VInt (array_size x));
         ("is_struct", VBool (is_struct x));
         ("struct_members",
           VList (map (fun m => VDict [("name", VStr (fst m));
                                       ("type", VStr (snd m))])
                      (struct_members x)));
         ("description", VStr (description x));
         ("uid", VStr (uid x))].
Section Decode.
Variable new_uid : string.
Definition from_dict (v : Value) : result t :=
  data <- as_dict v ;;
  sm <- as_list (dget data "struct_members" (VList [])) ;;
  sm <- mapM (pair_from_dict "type" as_str) sm ;;
  n <- dindex data "name" ;; n <- as_str n ;;
  b <- BaseDataType.of_value (dget data "base_type" (VStr "uint8")) ;;
  ia <- as_bool (dget data "is_array" (VBool false)) ;;
  sz <- as_int (dget data "array_size" (VInt 1)) ;;
  is <- as_bool (dget data "is_struct" (VBool false)) ;;
  d <- as_str (dget data "description" (VStr "")) ;;
  i <- as_str (dget data "uid" (VStr new_uid)) ;;
  Ok (mk n b ia sz is sm d i).
End Decode.
End ImplementationDataType.

Module DataTypeMapping.
Record t := mk { app_type_uid : string; impl_type_uid : string; uid : string }.
Definition to_dict (x : t) : Value :=
  VDict [("app_type_uid", VStr (app_type_uid x));
         ("impl_type_uid", VStr (impl_type_uid x)); ("uid", VStr (uid x))].
Section Decode.
Variable new_uid : string.
Definition from_dict (v : Value) : result t :=
  data <- as_dict v ;;
  a <- dindex data "app_type_uid" ;; a <- as_str a ;;
  m <- dindex data "impl_type_uid" ;; m <- as_str m ;;
  i <- as_str (dget data "uid" (VStr new_uid)) ;;
  Ok (mk a m i).
End Decode.
End DataTypeMapping.

Module DataElement.
Record t := mk {
  name : string; app_type_uid : option string; base_type : BaseDataType.t;
  init_value : string; description : string; uid : string }.
Definition to_dict (x : t) : Value :=
  VDict [("name", VStr (name x));
         ("app_type_uid", opt_str_to_value (app_type_uid x));
         ("base_type", VStr (BaseDataType.value (base_type x)));
         ("init_value", VStr (init_value x));
         ("description", VStr (description x)); ("uid", VStr (uid x))].
Section Decode.
Variable new_uid : string.
Definition from_dict (v : Value) : result t :=
  data <- as_dict v ;;
  n <- dindex data "name" ;; n <- as_str n ;;
  a <- as_opt_str (dget data "app_type_uid" VNone) ;;
  b <- BaseDataType.of_value (dget data "base_type" (VStr "uint8")) ;;
  iv <- as_str (dget data "init_value" (VStr "0")) ;;
  d <- as_str (dget data "description" (VStr "")) ;;
  i <- as_str (dget data "uid" (VStr new_uid)) ;;
  Ok (mk n a b iv d i).
End Decode.
End DataElement.

Module OperationArgument.
Record t := mk {
  name : string; direction : ArgumentDirection.t;
  app_type_uid : option string; base_type : BaseDataType.t;
  description : string; uid : string }.
Definition to_dict (x : t) : Value :=
  VDict [("name", VStr (name x));
         ("direction", VStr (ArgumentDirection.value (direction x)));
         ("app_type_uid", opt_str_to_value (app_type_uid x));
         ("base_type", VStr (BaseDataType.value (base_type x)));
         ("description", VStr (description x)); ("uid", VStr (uid x))].
Section Decode.
Variable new_uid : string.
Definition from_dict (v : Value) : result t :=
  data <- as_dict v ;;
  n <- dindex data "name" ;; n <- as_str n ;;
  dr <- ArgumentDirection.of_value (dget data "direction" (VStr "in")) ;;
  a <- as_opt_str (dget data "app_type_uid" VNone) ;;
  b <- BaseDataType.of_value (dget data "base_type" (VStr "uint8")) ;;
  d <- as_str (dget data "description" (VStr "")) ;;
  i <- as_str (dget data "uid" (VStr new_uid)) ;;
  Ok (mk n dr a b d i).
End Decode.
End OperationArgument.

Module Operation.
Record t := mk {
  name : string; return_type_uid : option string;
  return_base_type : BaseDataType.t;
  arguments : list OperationArgument.t;
  description : string; uid : string }.
Definition to_dict (x : t) : Value :=
  VDict [("name", VStr (name x));
         ("return_type_uid", opt_str_to_value (return_type_uid x));
         ("return_base_type", VStr (BaseDataType.value (return_base_type x)));
         ("arguments", VList (map OperationArgument.to_dict (arguments x)));
         ("description", VStr (description x)); ("uid", VStr (uid x))].
Section Decode.
Variable new_uid : string.
Definition from_dict (v : Value) : result t :=
  data <- as_dict v ;;
  args <- as_list (dget data "arguments" (VList [])) ;;
  args <- mapM (OperationArgument.from_dict new_uid) args ;;
  n <- dindex data "name" ;; n <- as_str n ;;
  r <- as_opt_str (dget data "return_type_uid" VNone) ;;
  b <- BaseDataType.of_value (dget data "return_base_type" (VStr "uint8")) ;;
  d <- as_str (dget data "description" (VStr "")) ;;
  i <- as_str (dget data "uid" (VStr new_uid)) ;;
  Ok (mk n r b args d i).
End Decode.
End Operation.

Module Interface.
Record t := mk {
  name : string; interface_type : InterfaceType.t;
  data_elements : list DataElement.t; operations : list Operation.t;
  description : string; uid : string }.
Definition to_dict (x : t) : Value :=
  VDict [("name", VStr (name x));
         ("interface_type", VStr (InterfaceType.value (interface_type x)));
         ("data_elements", VList (map DataElement.to_dict (data_elements x)));
         ("operations", VList (map Operation.to_dict (operations x)));
         ("description", VStr (description x)); ("uid", VStr (uid x))].
Section Decode.
Variable new_uid : string.
Definition from_dict (v : Value) : result t :=
  data <- as_dict v ;;
  n <- dindex data "name" ;; n <- as_str n ;;
  it <- InterfaceType.of_value
          (dget data "interface_type" (VStr "sender_receiver")) ;;
  des <- as_list (dget data "data_elements" (VList [])) ;;
  des <- mapM (DataElement.from_dict new_uid) des ;;
  ops <- as_list (dget data "operations" (VList [])) ;;
  ops <- mapM (Operation.from_dict new_uid) ops ;;
  d <- as_str (dget data "description" (VStr "")) ;;
  i <- as_str (dget data "uid" (VStr new_uid)) ;;
  Ok (mk n it des ops d i).
End Decode.
End Interface.

Module Port.
Record t := mk {
  name : string; direction : PortDirection.t;
  interface_uid : option string; description : string; uid : string }.
Definition to_dict (x : t) : Value :=
  VDict [("name", VStr (name x));
         ("direction", VStr (PortDirection.value (direction x)));
         ("interface_uid", opt_str_to_value (interface_uid x));
         ("description", VStr (description x)); ("uid", VStr (uid x))].
Section Decode.
Variable new_uid : string.
Definition from_dict (v : Value) : result t :=
  data <- as_dict v ;;
  n <- dindex data "name" ;; n <- as_str n ;;
  dr <- PortDirection.of_value (dget data "direction" (VStr "required")) ;;
  iu <- as_opt_str (dget data "interface_uid" VNone) ;;
  d <- as_str (dget data "description" (VStr "")) ;;
  i <- as_str (dget data "uid" (VStr new_uid)) ;;
  Ok (mk n dr iu d i).
End Decode.
Definition eq_dec (x y : t) : {x = y} + {x <> y}.
Proof.
  decide equality;
    try apply string_dec; try apply PortDirection.eq_dec.
  decide equality; apply string_dec.
Defined.
End Port.

Module Runnable.
Record t := mk {
  name : string; period_ms : Z; description : string; uid : string }.
Definition to_dict (x : t) : Value :=
  VDict [("name", VStr (name x)); ("period_ms", VInt (period_ms x));
         ("description", VStr (description x)); ("uid", VStr (uid x))].
Section Decode.
Variable new_uid : string.
Definition from_dict (v : Value) : result t :=
  data <- as_dict v ;;
  n <- dindex data "name" ;; n <- as_str n ;;
  p <- as_int (dget data "period_ms" (VInt 10)) ;;
  d <- as_str (dget data "description" (VStr "")) ;;
  i <- as_str (dget data "uid" (VStr new_uid)) ;;
  Ok (mk n p d i).
End Decode.
Definition eq_dec (x y : t) : {x = y} + {x <> y}.
Proof. decide equality; try apply string_dec; apply Z.eq_dec. Defined.
End Runnable.

Module SoftwareComponent.
Record t := mk {
  name : string; ports : list Port.t; runnables : list Runnable.t;
  description : string; uid : string }.
Definition to_dict (x : t) : Value :=
  VDict [("name", VStr (name x));
         ("ports", VList (map Port.to_dict (ports x)));
         ("runnables", VList (map Runnable.to_dict (runnables x)));
         ("description", VStr (description x)); ("uid", VStr (uid x))].
Section Decode.
Variable new_uid : string.
Definition from_dict (v : Value) : result t :=
  data <- as_dict v ;;
  n <- dindex data "name" ;; n <- as_str n ;;
  ps <- as_list (dget data "ports" (VList [])) ;;
  ps <- mapM (Port.from_dict new_uid) ps ;;
  rs <- as_list (dget data "runnables" (VList [])) ;;
  rs <- mapM (Runnable.from_dict new_uid) rs ;;
  d <- as_str (dget data "description" (VStr "")) ;;
  i <- as_str (dget data "uid" (VStr new_uid)) ;;
  Ok (mk n ps rs d i).
End Decode.
(** [get_port_by_uid]: the first port with this uid. *)
Definition get_port_by_uid (x : t) (u : string) : option Port.t :=
  find (fun p => String.eqb (Port.uid p) u) (ports x).
(** Dataclass equality ([__eq__] compares the fields). *)
Definition eq_dec (x y : t) : {x = y} + {x <> y}.
Proof.
  decide equality; try apply string_dec.
  - apply (list_eq_dec Runnable.eq_dec).
  - apply (list_eq_dec Port.eq_dec).
Defined.
End SoftwareComponent.

Module PortConnection.
Record t := mk {
  name : string; provider_swc_uid : string; provider_port_uid : string;
  requester_swc_uid : string; requester_port_uid : string;
  description : string; uid : string }.
Definition to_dict (x : t) : Value :=
  VDict [("name", VStr (name x));
         ("provider_swc_uid", VStr (provider_swc_uid x));
         ("provider_port_uid", VStr (provider_port_uid x));
         ("requester_swc_uid", VStr (requester_swc_uid x));
         ("requester_port_uid", VStr (requester_port_uid x));
         ("description", VStr (description x)); ("uid", VStr (uid x))].
Section Decode.
Variable new_uid : string.
Definition from_dict (v : Value) : result t :=
  data <- as_dict v ;;
  n <- dindex data "name" ;; n <- as_str n ;;
  ps <- dindex data "provider_swc_uid" ;; ps <- as_str ps ;;
  pp <- dindex data "provider_port_uid" ;; pp <- as_str pp ;;
  rs <- dindex data "requester_swc_uid" ;; rs <- as_str rs ;;
  rp <- dindex data "requester_port_uid" ;; rp <- as_str rp ;;
  d <- as_str (dget data "description" (VStr "")) ;;
  i <- as_str (dget data "uid" (VStr new_uid)) ;;
  Ok (mk n ps pp rs rp d i).
End Decode.
End PortConnection.

(** [list.remove(x)]: removes the first element equal to [x], raises
    [ValueError] when there is none. *)
Fixpoint list_remove {A} (eq_dec : forall x y : A, {x = y} + {x <> y})
    (x : A) (l : list A) : result (list A) :=
  match l with
  | [] => Err (ValueError "list.remove(x): x not in list")
  | y :: l' =>
      if eq_dec y x then Ok l'
      else r <- list_remove eq_dec x l' ;; Ok (y :: r)
  end.

(** [x in l] for a list of strings. *)
Definition str_in (x : string) (l : list string) : bool :=
  existsb (String.eqb x) l.

Definition opt_str_eqb (a b : option string) : bool :=
  match a, b with
  | Some x, Some y => String.eqb x y
  | None, None => true
  | _, _ => false
  end.

Definition dir_eqb (a b : PortDirection.t) : bool :=
  if PortDirection.eq_dec a b then true else false.

Module Project.
Record t := mk {
  name : string; description : string;
  compu_methods : list CompuMethod.t;
  application_data_types : list ApplicationDataType.t;
  implementation_data_types : list ImplementationDataType.t;
  data_type_mappings : list DataTypeMapping.t;
  interfaces : list Interface.t;
  components : list SoftwareComponent.t;
  connections : list PortConnection.t }.

Definition to_dict (x : t) : Value :=
  VDict [("name", VStr (name x)); ("description", VStr (description x));
         ("compu_methods", VList (map CompuMethod.to_dict (compu_methods x)));
         ("application_data_types",
           VList (map ApplicationDataType.to_dict (application_data_types x)));
         ("implementation_data_types",
           VList (map ImplementationDataType.to_dict (implementation_data_types x)));
         ("data_type_mappings",
           VList (map DataTypeMapping.to_dict (data_type_mappings x)));
         ("interfaces", VList (map Interface.to_dict (interfaces x)));
         ("components", VList (map SoftwareComponent.to_dict (components x)));
         ("connections", VList (map PortConnection.to_dict (connections x)))].

Section Decode.
Variable new_uid : string.
(** [[Cls.from_dict(e) for e in data.get(k, [])]] *)
Definition list_field {A} (data : dict) (k : string)
    (f : Value -> result A) : result (list A) :=
  l <- as_list (dget data k (VList [])) ;; mapM f l.
Definition from_dict (v : Value) : result t :=
  data <- as_dict v ;;
  n <- as_str (dget data "name" (VStr "Untitled Project")) ;;
  d <- as_str (dget data "description" (VStr "")) ;;
  cms <- list_field data "compu_methods" (CompuMethod.from_dict new_uid) ;;
  adts <- list_field data "application_data_types"
            (ApplicationDataType.from_dict new_uid) ;;
  idts <- list_field data "implementation_data_types"
            (ImplementationDataType.from_dict new_uid) ;;
  dtms <- list_field data "data_type_mappings"
            (DataTypeMapping.from_dict new_uid) ;;
  ifs <- list_field data "interfaces" (Interface.from_dict new_uid) ;;
  cs <- list_field data "components" (SoftwareComponent.from_dict new_uid) ;;
  conns <- list_field data "connections" (PortConnection.from_dict new_uid) ;;
  Ok (mk n d cms adts idts dtms ifs cs conns).
End Decode.

(** Lookup helpers: the first entity with the uid. *)
Definition get_interface_by_uid (p : t) (u : string) : option Interface.t :=
  find (fun i => String.eqb (Interface.uid i) u) (interfaces p).
Definition get_component_by_uid (p : t) (u : string)
    : option SoftwareComponent.t :=
  find (fun c => String.eqb (SoftwareComponent.uid c) u) (components p).
Definition get_impl_type_by_uid (p : t) (u : string)
    : option ImplementationDataType.t :=
  find (fun i => String.eqb (ImplementationDataType.uid i) u)
       (implementation_data_types p).

(** [get_impl_type_for_app_type]: the loop over [data_type_mappings]
    returns at the first mapping whose [app_type_uid] matches. *)
Fixpoint impl_type_for_app_type_loop (p : t) (u : string)
    (ms : list DataTypeMapping.t) : option ImplementationDataType.t :=
  match ms with
  | [] => None
  | m :: ms' =>
      if String.eqb (DataTypeMapping.app_type_uid m) u
      then get_impl_type_by_uid p (DataTypeMapping.impl_type_uid m)
      else impl_type_for_app_type_loop p u ms'
  end.
Definition get_impl_type_for_app_type (p : t) (u : string)
    : option ImplementationDataType.t :=
  impl_type_for_app_type_loop p u (data_type_mappings p).

(** [validate_connection] returns the pair [(ok, message)]. *)
Definition validate_connection (p : t) (provider_swc_uid provider_port_uid
    requester_swc_uid requester_port_uid : string) : bool * string :=
  let provider_swc := get_component_by_uid p provider_swc_uid in
  let requester_swc := get_component_by_uid p requester_swc_uid in
  match provider_swc with
  | None => (false, "Provider SWC not found")
  | Some psw =>
  match requester_swc with
  | None => (false, "Requester SWC not found")
  | Some rsw =>
  let provider_port := SoftwareComponent.get_port_by_uid psw provider_port_uid in
  let requester_port := SoftwareComponent.get_port_by_uid rsw requester_port_uid in
  match provider_port with
  | None => (false, "Provider port not found")
  | Some pp =>
  match requester_port with
  | None => (false, "Requester port not found")
  | Some rp =>
  if negb (dir_eqb (Port.direction pp) PortDirection.PROVIDED) then
    (false, "Provider port must have 'provided' direction")
  else if negb (dir_eqb (Port.direction rp) PortDirection.REQUIRED) then
    (false, "Requester port must have 'required' direction")
  else if negb (opt_str_eqb (Port.interface_uid pp) (Port.interface_uid rp)) then
    (false, "Ports must share the same interface")
  else if existsb (fun c =>
            String.eqb (PortConnection.provider_port_uid c) provider_port_uid &&
            String.eqb (PortConnection.requester_port_uid c) requester_port_uid)
          (connections p) then
    (false, "Connection already exists")
  else (true, "Valid")
  end end end end.

Definition set_components (p : t) (cs : list SoftwareComponent.t) : t :=
  mk (name p) (description p) (compu_methods p) (application_data_types p)
     (implementation_data_types p) (data_type_mappings p) (interfaces p)
     cs (connections p).
Definition set_connections (p : t) (cs : list PortConnection.t) : t :=
  mk (name p) (description p) (compu_methods p) (application_data_types p)
     (implementation_data_types p) (data_type_mappings p) (interfaces p)
     (components p) cs.
Definition get_app_type_by_uid (p : t) (u : string)
    : option ApplicationDataType.t :=
  find (fun a => String.eqb (ApplicationDataType.uid a) u)
       (application_data_types p).
Definition get_compu_method_by_uid (p : t) (u : string)
    : option CompuMethod.t :=
  find (fun c => String.eqb (CompuMethod.uid c) u) (compu_methods p).
Definition get_connection_by_uid (p : t) (u : string)
    : option PortConnection.t :=
  find (fun c => String.eqb (PortConnection.uid c) u) (connections p).

(** [get_compatible_ports_for_connection]: the pairs [(swc, port)], in the
    order of the two nested loops, of the required ports that share the
    provided port's interface and have another uid. *)
Definition get_compatible_ports_for_connection (p : t) (provider_port : Port.t)
    : list (SoftwareComponent.t * Port.t) :=
  if negb (dir_eqb (Port.direction provider_port) PortDirection.PROVIDED)
  then []
  else
    flat_map (fun swc =>
      map (fun port => (swc, port))
        (filter (fun port =>
           dir_eqb (Port.direction port) PortDirection.REQUIRED &&
           opt_str_eqb (Port.interface_uid port)
                       (Port.interface_uid provider_port) &&
           negb (String.eqb (Port.uid port) (Port.uid provider_port)))
          (SoftwareComponent.ports swc)))
      (components p).

(** [get_connections_for_port] *)
Definition get_connections_for_port (p : t) (port_uid : string)
    : list PortConnection.t :=
  filter (fun c => String.eqb (PortConnection.provider_port_uid c) port_uid ||
                   String.eqb (PortConnection.requester_port_uid c) port_uid)
         (connections p).

Definition set_interfaces (p : t) (is : list Interface.t) : t :=
  mk (name p) (description p) (compu_methods p) (application_data_types p)
     (implementation_data_types p) (data_type_mappings p) is
     (components p) (connections p).

End Project.

(** The [item_type == "swc"] branch of [MainWindow._delete_item]: the
    connections are filtered first, then [components.remove(obj)] runs (and
    raises when [obj] is not in the list, after the filtering). *)
Definition delete_swc (p : Project.t) (obj : SoftwareComponent.t)
    : result unit * Project.t :=
  let ports_to_remove := map Port.uid (SoftwareComponent.ports obj) in
  let p1 := Project.set_connections p
    (filter (fun c =>
       negb (str_in (PortConnection.provider_port_uid c) ports_to_remove) &&
       negb (str_in (PortConnection.requester_port_uid c) ports_to_remove))
      (Project.connections p)) in
  match list_remove SoftwareComponent.eq_dec obj (Project.components p1) with
  | Ok cs => (Ok tt, Project.set_components p1 cs)
  | Err e => (Err e, p1)
  end.

(* ------------------------------------------------------------------ *)
(** ** Code generator type table ([src/codegen/generator.py]) *)

Definition C_TYPE_MAP : list (string * string) :=
  [("uint8", "uint8"); ("uint16", "uint16"); ("uint32", "uint32");
   ("int8", "int8"); ("int16", "int16"); ("int32", "int32");
   ("float32", "float32"); ("float64", "float64"); ("boolean", "boolean")].

Fixpoint str_assoc (k : string) (l : list (string * string)) : option string :=
  match l with
  | [] => None
  | (k', v) :: l' => if String.eqb k k' then Some v else str_assoc k l'
  end.

(** [C_TYPE_MAP.get(data_type, "uint8")] *)
Definition c_type_filter (data_type : string) : string :=
  match str_assoc data_type C_TYPE_MAP with Some v => v | None => "uint8" end.

(* ------------------------------------------------------------------ *)
(** ** Multi-file projects ([src/model/multifile.py]) *)

(** Paths are strings; [resolve()] is taken as the identity (paths are
    treated as already absolute and normalised). *)
Definition slash : ascii := "/"%char.
Definition dot : ascii := "."%char.

(** The characters of a reversed path up to the first [c]. *)
Fixpoint upto (c : ascii) (l : list ascii) : list ascii :=
  match l with
  | [] => []
  | x :: l' => if Ascii.eqb x c then [] else x :: upto c l'
  end.

(** [p.parent] *)
Definition path_parent (p : string) : string :=
  let r := rev (list_ascii_of_string p) in
  let rname := upto slash r in
  match skipn (S (length rname)) r with
  | [] => if Nat.ltb (length rname) (length r) then "/" else "."
  | r' => string_of_list_ascii (rev r')
  end.

(** [base / rel], as a string: paths are compared as the strings they
    are built from ([resolve()] and pathlib's normalisation are not
    modelled). *)
Definition path_join (base rel : string) : string := base ++ "/" ++ rel.

(** [s.split(c)] on a list of characters. *)
Fixpoint split_on (c : ascii) (l : list ascii) : list (list ascii) :=
  match l with
  | [] => [[]]
  | x :: l' =>
      if Ascii.eqb x c then [] :: split_on c l'
      else match split_on c l' with
           | [] => [[x]]
           | w :: ws => (x :: w) :: ws
           end
  end.

(** [PurePosixPath(p).name]: the last of the components, where the parser
    drops the empty components (repeated and trailing slashes) and the
    [.] components; [""] when there is none. *)
Definition path_name (p : string) : list ascii :=
  last (filter (fun w => negb (match w with
                               | [] => true
                               | [c] => Ascii.eqb c dot
                               | _ => false
                               end))
               (split_on slash (list_ascii_of_string p))) [].

(** [Path(p).stem]: with [i = name.rfind('.')], [name[:i]] when
    [0 < i < len(name) - 1], else [name]. *)
Definition path_stem (p : string) : string :=
  let n := path_name p in
  let rext := upto dot (rev n) in
  if Nat.ltb (S (length rext)) (length n) && negb (Nat.eqb (length rext) 0)
  then string_of_list_ascii (firstn (length n - length rext - 1) n)
  else string_of_list_ascii n.

(** Python dict operations on an insertion-ordered association list:
    assignment to an existing key keeps its position, a new key is
    appended; [del d[k]] raises [KeyError] on a missing key. *)
Fixpoint dict_set {A} (k : string) (v : A) (d : list (string * A))
    : list (string * A) :=
  match d with
  | [] => [(k, v)]
  | (k', v') :: d' =>
      if String.eqb k k' then (k, v) :: d' else (k', v') :: dict_set k v d'
  end.

Fixpoint dict_get {A} (k : string) (d : list (string * A)) : option A :=
  match d with
  | [] => None
  | (k', v) :: d' => if String.eqb k k' then Some v else dict_get k d'
  end.

Fixpoint dict_del {A} (k : string) (d : list (string * A))
    : result (list (string * A)) :=
  match d with
  | [] => Err (KeyError k)
  | (k', v) :: d' =>
      if String.eqb k k' then Ok d'
      else r <- dict_del k d' ;; Ok ((k', v) :: r)
  end.

Module ModuleReference.
Record t := mk { path : string; name : string; description : string;
                 enabled : bool }.
Definition to_dict (x : t) : Value :=
  VDict [("path", VStr (path x)); ("name", VStr (name x));
         ("description", VStr (description x));
         ("enabled", VBool (enabled x))].
Definition from_dict (v : Value) : result t :=
  data <- as_dict v ;;
  p <- dindex data "path" ;; p <- as_str p ;;
  n <- as_str (dget data "name" (VStr (path_stem p))) ;;
  d <- as_str (dget data "description" (VStr "")) ;;
  e <- as_bool (dget data "enabled" (VBool true)) ;;
  Ok (mk p n d e).
Definition set_enabled (x : t) (b : bool) : t :=
  mk (path x) (name x) (description x) b.
End ModuleReference.

Module MasterProject.
Record t := mk {
  name : string; description : string;
  modules : list ModuleReference.t;
  global_connections : list PortConnection.t }.
Definition to_dict (x : t) : Value :=
  VDict [("name", VStr (name x)); ("description", VStr (description x));
         ("modules", VList (map ModuleReference.to_dict (modules x)));
         ("global_connections",
           VList (map PortConnection.to_dict (global_connections x)))].
Section Decode.
Variable new_uid : string.
(** [from_dict]: agrees with the Python decoder on documents whose
    fields have the types the dataclass declares; a value of another type,
    which [data.get] would store unchecked, is rejected here. *)
Definition from_dict (v : Value) : result t :=
  data <- as_dict v ;;
  n <- as_str (dget data "name" (VStr "Multi-Module Project")) ;;
  d <- as_str (dget data "description" (VStr "")) ;;
  ms <- Project.list_field data "modules" ModuleReference.from_dict ;;
  gs <- Project.list_field data "global_connections"
          (PortConnection.from_dict new_uid) ;;
  Ok (mk n d ms gs).
End Decode.
Definition set_modules (x : t) (ms : list ModuleReference.t) : t :=
  mk (name x) (description x) ms (global_connections x).
End MasterProject.

(** The [Module] dataclass of multifile.py. *)
Module Module_.
Record t := mk {
  name : string; description : string;
  compu_methods : list CompuMethod.t;
  application_data_types : list ApplicationDataType.t;
  implementation_data_types : list ImplementationDataType.t;
  data_type_mappings : list DataTypeMapping.t;
  interfaces : list Interface.t;
  components : list SoftwareComponent.t;
  connections : list PortConnection.t }.
Definition to_dict (x : t) : Value :=
  VDict [("name", VStr (name x)); ("description", VStr (description x));
         ("compu_methods", VList (map CompuMethod.to_dict (compu_methods x)));
         ("application_data_types",
           VList (map ApplicationDataType.to_dict (application_data_types x)));
         ("implementation_data_types",
           VList (map ImplementationDataType.to_dict (implementation_data_types x)));
         ("data_type_mappings",
           VList (map DataTypeMapping.to_dict (data_type_mappings x)));
         ("interfaces", VList (map Interface.to_dict (interfaces x)));
         ("components", VList (map SoftwareComponent.to_dict (components x)));
         ("connections", VList (map PortConnection.to_dict (connections x)))].
Section Decode.
Variable new_uid : string.
(** [from_dict]: agrees with the Python decoder on documents whose
    fields have the types the dataclass declares; a value of another type,
    which [data.get] would store unchecked, is rejected here. *)
Definition from_dict (v : Value) : result t :=
  data <- as_dict v ;;
  n <- as_str (dget data "name" (VStr "Untitled Module")) ;;
  d <- as_str (dget data "description" (VStr "")) ;;
  cms <- Project.list_field data "compu_methods" (CompuMethod.from_dict new_uid) ;;
  adts <- Project.list_field data "application_data_types"
            (ApplicationDataType.from_dict new_uid) ;;
  idts <- Project.list_field data "implementation_data_types"
            (ImplementationDataType.from_dict new_uid) ;;
  dtms <- Project.list_field data "data_type_mappings"
            (DataTypeMapping.from_dict new_uid) ;;
  ifs <- Project.list_field data "interfaces" (Interface.from_dict new_uid) ;;
  cs <- Project.list_field data "components"
          (SoftwareComponent.from_dict new_uid) ;;
  conns <- Project.list_field data "connections"
             (PortConnection.from_dict new_uid) ;;
  Ok (mk n d cms adts idts dtms ifs cs conns).
End Decode.
Definition set_name (x : t) (n : string) : t :=
  mk n (description x) (compu_methods x) (application_data_types x)
     (implementation_data_types x) (data_type_mappings x) (interfaces x)
     (components x) (connections x).
End Module_.
(** A file on disk as [yaml.safe_load] sees it. *)
Inductive FileContent : Type :=
| Malformed                 (** [yaml.safe_load] raises *)
| Yaml (v : Value).         (** the loaded document *)

(** The [MultiFileProject] object together with the file system it reads
    and writes and the lines it prints. *)
Record MFP := mkMFP {
  master : MasterProject.t;
  master_path : option string;
  modules : list (string * Module_.t);      (** [str(path) -> Module] *)
  module_paths : list (string * string);    (** [module name -> path] *)
  merged : option Project.t;                (** [_merged] *)
  fs : list (string * FileContent);
  log : list string }.

Definition set_master (st : MFP) (m : MasterProject.t) : MFP :=
  mkMFP m (master_path st) (modules st) (module_paths st) (merged st) (fs st) (log st).
Definition set_master_path (st : MFP) (p : option string) : MFP :=
  mkMFP (master st) p (modules st) (module_paths st) (merged st) (fs st) (log st).
Definition set_modules (st : MFP) (ms : list (string * Module_.t)) : MFP :=
  mkMFP (master st) (master_path st) ms (module_paths st) (merged st) (fs st) (log st).
Definition set_module_paths (st : MFP) (mp : list (string * string)) : MFP :=
  mkMFP (master st) (master_path st) (modules st) mp (merged st) (fs st) (log st).
Definition set_merged (st : MFP) (m : option Project.t) : MFP :=
  mkMFP (master st) (master_path st) (modules st) (module_paths st) m (fs st) (log st).
Definition set_fs (st : MFP) (f : list (string * FileContent)) : MFP :=
  mkMFP (master st) (master_path st) (modules st) (module_paths st) (merged st) f (log st).
Definition print (st : MFP) (line : string) : MFP :=
  mkMFP (master st) (master_path st) (modules st) (module_paths st) (merged st)
        (fs st) (log st ++ [line]).

Definition path_exists (st : MFP) (p : string) : bool :=
  match dict_get p (fs st) with Some _ => true | None => false end.

(** [with open(p) as f: yaml.safe_load(f)] *)
Definition read_yaml (st : MFP) (p : string) : result Value :=
  match dict_get p (fs st) with
  | None => Err (OSError p)
  | Some Malformed => Err (YAMLError p)
  | Some (Yaml v) => Ok v
  end.

(** [MultiFileProject()] and [new_project(name)] *)
Definition new_project (name : string) (files : list (string * FileContent)) : MFP :=
  mkMFP (MasterProject.mk name "" [] []) None [] [] None files [].

(** The recomputation of the merged view: [get_merged_project] without the
    cache. *)
Definition merge (st : MFP) : Project.t :=
  let ms := map snd (modules st) in
  Project.mk (MasterProject.name (master st))
    (MasterProject.description (master st))
    (flat_map Module_.compu_methods ms)
    (flat_map Module_.application_data_types ms)
    (flat_map Module_.implementation_data_types ms)
    (flat_map Module_.data_type_mappings ms)
    (flat_map Module_.interfaces ms)
    (flat_map Module_.components ms)
    (flat_map Module_.connections ms
       ++ MasterProject.global_connections (master st)).

(** [get_merged_project]: the memoised value when there is one. *)
Definition get_merged_project (st : MFP) : Project.t * MFP :=
  match merged st with
  | Some p => (p, st)
  | None => let p := merge st in (p, set_merged st (Some p))
  end.

(** [invalidate_cache] *)
Definition invalidate_cache (st : MFP) : MFP := set_merged st None.

Section MultiFileOps.
Variable new_uid : string.

(** [load_module(module_path, name)] *)
Definition load_module (module_path : string) (name : option string) (st : MFP)
    : result Module_.t * MFP :=
  match read_yaml st module_path with
  | Err e => (Err e, st)
  | Ok data =>
    match Module_.from_dict new_uid data with
    | Err e => (Err e, st)
    | Ok m =>
      let m := match name with
               | Some n => if String.eqb n "" then m else Module_.set_name m n
               | None => m
               end in
      let st := set_modules st (dict_set module_path m (modules st)) in
      let st := set_module_paths st
                  (dict_set (Module_.name m) module_path (module_paths st)) in
      (Ok m, set_merged st None)
    end
  end.

(** The loop of [load_master] over the module references. *)
Fixpoint load_refs (base_dir : string) (refs : list ModuleReference.t)
    (st : MFP) : result unit * MFP :=
  match refs with
  | [] => (Ok tt, st)
  | r :: rs =>
    if ModuleReference.enabled r then
      let mod_path := path_join base_dir (ModuleReference.path r) in
      if path_exists st mod_path then
        match load_module mod_path (Some (ModuleReference.name r)) st with
        | (Ok _, st') => load_refs base_dir rs st'
        | (Err e, st') => (Err e, st')
        end
      else load_refs base_dir rs
             (print st ("Warning: Module not found: " ++ mod_path))
    else load_refs base_dir rs st
  end.

(** [load_master(master_path)] *)
Definition load_master (mpath : string) (st : MFP) : result unit * MFP :=
  match read_yaml st mpath with
  | Err e => (Err e, st)
  | Ok data =>
    match MasterProject.from_dict new_uid data with
    | Err e => (Err e, st)
    | Ok m =>
      let st := set_master st m in
      let st := set_master_path st (Some mpath) in
      let st := set_module_paths (set_modules st []) [] in
      match load_refs (path_parent mpath) (MasterProject.modules m) st with
      | (Ok _, st') => (Ok tt, set_merged st' None)
      | (Err e, st') => (Err e, st')
      end
    end
  end.

(** [add_module(module, relative_path)]; writing the file always succeeds
    in the model and leaves the module's document on disk. *)
Definition add_module (m : Module_.t) (relative_path : string) (st : MFP)
    : result unit * MFP :=
  match master_path st with
  | None => (Err (ValueError "Save master project first"), st)
  | Some mp =>
    let mod_ref := ModuleReference.mk relative_path (Module_.name m)
                     (Module_.description m) true in
    let st := set_master st (MasterProject.set_modules (master st)
                (MasterProject.modules (master st) ++ [mod_ref])) in
    let abs_path := path_join (path_parent mp) relative_path in
    let st := set_modules st (dict_set abs_path m (modules st)) in
    let st := set_module_paths st
                (dict_set (Module_.name m) abs_path (module_paths st)) in
    let st := set_fs st (dict_set abs_path (Yaml (Module_.to_dict m)) (fs st)) in
    (Ok tt, set_merged st None)
  end.

(** [remove_module(module_name, delete_file)] *)
Definition remove_module (module_name : string) (delete_file : bool) (st : MFP)
    : result unit * MFP :=
  let st := set_master st (MasterProject.set_modules (master st)
              (filter (fun r => negb (String.eqb (ModuleReference.name r) module_name))
                      (MasterProject.modules (master st)))) in
  match dict_get module_name (module_paths st) with
  | None => (Ok tt, set_merged st None)
  | Some path =>
    match dict_del path (modules st) with
    | Err e => (Err e, st)
    | Ok ms =>
      let st := set_modules st ms in
      match dict_del module_name (module_paths st) with
      | Err e => (Err e, st)
      | Ok mp =>
        let st := set_module_paths st mp in
        let st := if delete_file && path_exists st path
                  then set_fs st (filter (fun kv => negb (String.eqb (fst kv) path)) (fs st))
                  else st in
        (Ok tt, set_merged st None)
      end
    end
  end.
End MultiFileOps.

(** [master.modules[i].enabled = b]: the code has no method for it; a
    caller assigns the attribute of a reference in place. *)
Definition set_module_enabled (i : nat) (b : bool) (st : MFP) : MFP :=
  let fix upd (k : nat) (l : list ModuleReference.t) :=
    match l, k with
    | [], _ => []
    | r :: l', O => ModuleReference.set_enabled r b :: l'
    | r :: l', S k' => r :: upd k' l'
    end in
  set_master st (MasterProject.set_modules (master st)
                   (upd i (MasterProject.modules (master st)))).

(** The structural mutations of a [MultiFileProject]. *)
Inductive Mutation : Type :=
| MLoadMaster (path : string)
| MLoadModule (path : string) (name : option string)
| MAddModule (m : Module_.t) (relative_path : string)
| MRemoveModule (name : string) (delete_file : bool)
| MSetEnabled (i : nat) (b : bool)
| MInvalidate.

Definition run_mutation (new_uid : string) (op : Mutation) (st : MFP)
    : result unit * MFP :=
  match op with
  | MLoadMaster p => load_master new_uid p st
  | MLoadModule p n =>
      let (r, st') := load_module new_uid p n st in
      (bind r (fun _ => Ok tt), st')
  | MAddModule m rp => add_module m rp st
  | MRemoveModule n d => remove_module n d st
  | MSetEnabled i b => (Ok tt, set_module_enabled i b st)
  | MInvalidate => (Ok tt, invalidate_cache st)
  end.

(* ------------------------------------------------------------------ *)
(** ** More of [MultiFileProject] ([src/model/multifile.py]) *)

(** [get_module_by_name]: [self.modules[str(self.module_paths[name])]]
    raises [KeyError] when the recorded path has no loaded module. *)
Definition get_module_by_name (st : MFP) (name : string)
    : result (option Module_.t) :=
  match dict_get name (module_paths st) with
  | None => Ok None
  | Some p =>
      match dict_get p (modules st) with
      | Some m => Ok (Some m)
      | None => Err (KeyError p)
      end
  end.

(** The element lists [find_element_module] searches in one module:
    compu methods, application and implementation types, interfaces,
    components and their ports. *)
Definition module_has_uid (m : Module_.t) (u : string) : bool :=
  existsb (fun cm => String.eqb (CompuMethod.uid cm) u) (Module_.compu_methods m) ||
  existsb (fun adt => String.eqb (ApplicationDataType.uid adt) u)
          (Module_.application_data_types m) ||
  existsb (fun idt => String.eqb (ImplementationDataType.uid idt) u)
          (Module_.implementation_data_types m) ||
  existsb (fun i => String.eqb (Interface.uid i) u) (Module_.interfaces m) ||
  existsb (fun swc => String.eqb (SoftwareComponent.uid swc) u ||
                      existsb (fun port => String.eqb (Port.uid port) u)
                              (SoftwareComponent.ports swc))
          (Module_.components m).

(** The loop of [find_element_module] over [self.modules.items()]. *)
Fixpoint find_element_module_loop (ms : list (string * Module_.t)) (u : string)
    : option string :=
  match ms with
  | [] => None
  | (_, m) :: ms' =>
      if module_has_uid m u then Some (Module_.name m)
      else find_element_module_loop ms' u
  end.

(** [find_element_module] *)
Definition find_element_module (st : MFP) (u : string) : option string :=
  find_element_module_loop (modules st) u.

(** A module contains the uid [u] when one of the lists
    [find_element_module] walks holds an element with that uid. *)
Definition module_contains (m : Module_.t) (u : string) : Prop :=
  (exists cm, In cm (Module_.compu_methods m) /\ CompuMethod.uid cm = u) \/
  (exists adt, In adt (Module_.application_data_types m) /\
               ApplicationDataType.uid adt = u) \/
  (exists idt, In idt (Module_.implementation_data_types m) /\
               ImplementationDataType.uid idt = u) \/
  (exists i, In i (Module_.interfaces m) /\ Interface.uid i = u) \/
  (exists swc, In swc (Module_.components m) /\
     (SoftwareComponent.uid swc = u \/
      exists port, In port (SoftwareComponent.ports swc) /\ Port.uid port = u)).

(** [with open(p, 'w') as f: yaml.dump(v, f, ...)] *)
Definition write_yaml (st : MFP) (p : string) (v : Value) : MFP :=
  set_fs st (dict_set p (Yaml v) (fs st)).

(** [save_master(master_path=None)] *)
Definition save_master (arg : option string) (st : MFP) : result unit * MFP :=
  let st := match arg with
            | Some p => set_master_path st (Some p)
            | None => st
            end in
  match master_path st with
  | None => (Err (ValueError "No master path specified"), st)
  | Some p => (Ok tt, write_yaml st p (MasterProject.to_dict (master st)))
  end.

(** [save_module(module_name)] *)
Definition save_module (module_name : string) (st : MFP) : result unit * MFP :=
  match dict_get module_name (module_paths st) with
  | None => (Err (ValueError ("Unknown module: " ++ module_name)), st)
  | Some p =>
      match dict_get p (modules st) with
      | None => (Err (KeyError p), st)
      | Some m => (Ok tt, write_yaml st p (Module_.to_dict m))
      end
  end.

(** The loop of [save_multifile_project] over [module_paths.items()]. *)
Fixpoint save_module_files (mps : list (string * string)) (st : MFP)
    : result unit * MFP :=
  match mps with
  | [] => (Ok tt, st)
  | (_, p) :: mps' =>
      match dict_get p (modules st) with
      | None => (Err (KeyError p), st)
      | Some m => save_module_files mps' (write_yaml st p (Module_.to_dict m))
      end
  end.

(** [save_multifile_project(project)]: the modules first, the master last. *)
Definition save_multifile_project (st : MFP) : result unit * MFP :=
  match master_path st with
  | None => (Err (ValueError "Master path not set"), st)
  | Some mp =>
      match save_module_files (module_paths st) st with
      | (Err e, st') => (Err e, st')
      | (Ok _, st') =>
          (Ok tt, write_yaml st' mp (MasterProject.to_dict (master st')))
      end
  end.

(* ------------------------------------------------------------------ *)
(** ** More of [MainWindow] ([src/gui/main_window.py]) *)

(** [self.project.connections.append(conn)] in [_add_connection] and
    [_create_connection_from_port]. *)
Definition add_connection (p : Project.t) (conn : PortConnection.t)
    : Project.t :=
  Project.set_connections p (Project.connections p ++ [conn]%list).

(** Dataclass equality ([__eq__] compares the fields) of the interface
    records, for [list.remove]. *)
Definition BaseDataType_eq_dec (x y : BaseDataType.t) : {x = y} + {x <> y}.
Proof. decide equality. Defined.
Definition InterfaceType_eq_dec (x y : InterfaceType.t) : {x = y} + {x <> y}.
Proof. decide equality. Defined.
Definition ArgumentDirection_eq_dec (x y : ArgumentDirection.t)
    : {x = y} + {x <> y}.
Proof. decide equality. Defined.
Definition opt_string_eq_dec (x y : option string) : {x = y} + {x <> y}.
Proof. decide equality; apply string_dec. Defined.
Definition DataElement_eq_dec (x y : DataElement.t) : {x = y} + {x <> y}.
Proof.
  decide equality;
    first [apply string_dec | apply BaseDataType_eq_dec | apply opt_string_eq_dec].
Defined.
Definition OperationArgument_eq_dec (x y : OperationArgument.t)
    : {x = y} + {x <> y}.
Proof.
  decide equality;
    first [apply string_dec | apply BaseDataType_eq_dec | apply opt_string_eq_dec
          | apply ArgumentDirection_eq_dec].
Defined.
Definition Operation_eq_dec (x y : Operation.t) : {x = y} + {x <> y}.
Proof.
  decide equality;
    first [apply string_dec | apply BaseDataType_eq_dec | apply opt_string_eq_dec
          | apply (list_eq_dec OperationArgument_eq_dec)].
Defined.
Definition Interface_eq_dec (x y : Interface.t) : {x = y} + {x <> y}.
Proof.
  decide equality;
    first [apply string_dec | apply InterfaceType_eq_dec
          | apply (list_eq_dec Operation_eq_dec)
          | apply (list_eq_dec DataElement_eq_dec)].
Defined.

(** The [item_type == "interface"] branch of [_delete_item]:
    [self.project.interfaces.remove(obj)]. *)
Definition delete_interface (p : Project.t) (obj : Interface.t)
    : result unit * Project.t :=
  match list_remove Interface_eq_dec obj (Project.interfaces p) with
  | Ok is => (Ok tt, Project.set_interfaces p is)
  | Err e => (Err e, p)
  end.

Definition set_ports (swc : SoftwareComponent.t) (ps : list Port.t)
    : SoftwareComponent.t :=
  SoftwareComponent.mk (SoftwareComponent.name swc) ps
    (SoftwareComponent.runnables swc) (SoftwareComponent.description swc)
    (SoftwareComponent.uid swc).

(** [l[n] = x] for an index in range. *)
Fixpoint replace_nth {A} (n : nat) (x : A) (l : list A) : list A :=
  match l, n with
  | [], _ => []
  | _ :: l', O => x :: l'
  | y :: l', S n' => y :: replace_nth n' x l'
  end.

(** The [item_type == "port"] branch of [_delete_item].  The connections
    that mention the port's uid are filtered out first, then
    [parent_swc.ports.remove(obj)] runs on the parent component, the one at
    position [parent] of [project.components] the tree was built from (a
    parent no longer in that list is not part of the project, so the
    project keeps the filtered connections only). *)
Definition delete_port (p : Project.t) (parent : nat) (obj : Port.t)
    : result unit * Project.t :=
  let p1 := Project.set_connections p
    (filter (fun c =>
       negb (String.eqb (PortConnection.provider_port_uid c) (Port.uid obj)) &&
       negb (String.eqb (PortConnection.requester_port_uid c) (Port.uid obj)))
      (Project.connections p)) in
  match nth_error (Project.components p1) parent with
  | None => (Ok tt, p1)
  | Some swc =>
      match list_remove Port.eq_dec obj (SoftwareComponent.ports swc) with
      | Ok ps =>
          (Ok tt, Project.set_components p1
                    (replace_nth parent (set_ports swc ps) (Project.components p1)))
      | Err e => (Err e, p1)
      end
  end.

(* ------------------------------------------------------------------ *)
(** ** [CodeGenerator.generate_all] ([src/codegen/generator.py]) *)

Section CodeGenerator.
(** The Jinja2 templates, rendered for their arguments
    ([_resolve_port_interfaces] only attaches interface objects the
    templates read, so a rendering is a function of the component and the
    project). *)
Variable render_std_types : string.
Variable render_rte_types : list Interface.t -> string.
Variables render_swc_header render_swc_source render_rte_header
  : SoftwareComponent.t -> Project.t -> string.

(** The per-component part of [generate_all]: three files each, written
    with [write_text] (an existing file is overwritten). *)
Fixpoint generate_swc_files (p : Project.t) (out : string)
    (swcs : list SoftwareComponent.t) (files : list (string * string))
    : list string * list (string * string) :=
  match swcs with
  | [] => ([], files)
  | swc :: rest =>
      let header_path := path_join out (SoftwareComponent.name swc ++ ".h") in
      let files := dict_set header_path (render_swc_header swc p) files in
      let source_path := path_join out (SoftwareComponent.name swc ++ ".c") in
      let files := dict_set source_path (render_swc_source swc p) files in
      let rte_path := path_join out ("Rte_" ++ SoftwareComponent.name swc ++ ".h") in
      let files := dict_set rte_path (render_rte_header swc p) files in
      let (paths, files) := generate_swc_files p out rest files in
      (header_path :: source_path :: rte_path :: paths, files)
  end.

(** [generate_all(project, output_dir)]: the list of generated paths and
    the output files. *)
Definition generate_all (p : Project.t) (out : string)
    (files : list (string * string)) : list string * list (string * string) :=
  let std_types_path := path_join out "Std_Types.h" in
  let files := dict_set std_types_path render_std_types files in
  let rte_types_path := path_join out "Rte_Type.h" in
  let files := dict_set rte_types_path (render_rte_types (Project.interfaces p)) files in
  let (paths, files) := generate_swc_files p out (Project.components p) files in
  (std_types_path :: rte_types_path :: paths, files).
End CodeGenerator.

(* ------------------------------------------------------------------ *)
(** ** The connection rules as the spec words them (spec 4.2)

    [spec_first_violated_rule] follows the spec's six checks in its order;
    [reason_of_message] classifies the messages the code returns. *)

Inductive Reason : Type :=
| ComponentNotFound
| PortNotFound
| WrongDirection
| InterfaceMismatch
| DuplicateConnection.

Definition reason_of_message (msg : string) : option Reason :=
  if String.eqb msg "Provider SWC not found"
     || String.eqb msg "Requester SWC not found" then Some ComponentNotFound
  else if String.eqb msg "Provider port not found"
     || String.eqb msg "Requester port not found" then Some PortNotFound
  else if String.eqb msg "Provider port must have 'provided' direction"
     || String.eqb msg "Requester port must have 'required' direction"
  then Some WrongDirection
  else if String.eqb msg "Ports must share the same interface"
  then Some InterfaceMismatch
  else if String.eqb msg "Connection already exists"
  then Some DuplicateConnection
  else None.

Definition spec_first_violated_rule (p : Project.t)
    (provider_swc provider_port requester_swc requester_port : string)
    : option Reason :=
  match Project.get_component_by_uid p provider_swc,
        Project.get_component_by_uid p requester_swc with
  | Some a, Some b =>
    match SoftwareComponent.get_port_by_uid a provider_port,
          SoftwareComponent.get_port_by_uid b requester_port with
    | Some x, Some y =>
      if negb (dir_eqb (Port.direction x) PortDirection.PROVIDED
               && dir_eqb (Port.direction y) PortDirection.REQUIRED)
      then Some WrongDirection
      else if negb (opt_str_eqb (Port.interface_uid x) (Port.interface_uid y))
      then Some InterfaceMismatch
      else if existsb (fun c =>
                String.eqb (PortConnection.provider_port_uid c) provider_port &&
                String.eqb (PortConnection.requester_port_uid c) requester_port)
              (Project.connections p)
      then Some DuplicateConnection
      else None
    | _, _ => Some PortNotFound
    end
  | _, _ => Some ComponentNotFound
  end.

(* ================================================================== *)
(** * Properties *)

Lemma dir_eqb_true a b : dir_eqb a b = true <-> a = b.
Proof. unfold dir_eqb; destruct (PortDirection.eq_dec a b); split; congruence. Qed.

Lemma opt_str_eqb_true a b : opt_str_eqb a b = true <-> a = b.
Proof.
  destruct a as [x|], b as [y|]; simpl; try (split; congruence).
  rewrite String.eqb_eq; split; congruence.
Qed.

Lemma existsb_conn_true (l : list PortConnection.t) pp rp :
  existsb (fun c => String.eqb (PortConnection.provider_port_uid c) pp &&
                    String.eqb (PortConnection.requester_port_uid c) rp) l = true
  <-> exists c, In c l /\ PortConnection.provider_port_uid c = pp
                /\ PortConnection.requester_port_uid c = rp.
Proof.
  rewrite existsb_exists; split.
  - intros [c [Hin Hc]]; apply andb_true_iff in Hc as [H1 H2].
    apply String.eqb_eq in H1, H2; eauto.
  - intros [c [Hin [H1 H2]]]; exists c; split; auto.
    rewrite H1, H2, !String.eqb_refl; reflexivity.
Qed.

(** ** C4: the target type table *)

(** C4 (code_bug): [C_TYPE_MAP] has no entries for "uint64" and "int64",
    two members of [BaseDataType]; [c_type_filter] sends both to the
    "uint8" fallback, while the nine other tags map to themselves and any
    other string falls back to "uint8". *)
Theorem c_type_filter_64bit_fallback :
  c_type_filter "uint64" = "uint8" /\ c_type_filter "int64" = "uint8" /\
  Forall (fun b => c_type_filter (BaseDataType.value b) = BaseDataType.value b)
    (List.filter (fun b => negb (String.eqb (BaseDataType.value b) "uint64"
                               || String.eqb (BaseDataType.value b) "int64"))
       BaseDataType.all) /\
  (forall s, ~ In s (map fst C_TYPE_MAP) -> c_type_filter s = "uint8").
Proof.
  split; [reflexivity|]. split; [reflexivity|]. split.
  - repeat constructor.
  - intros s Hs. unfold c_type_filter.
    assert (E : str_assoc s C_TYPE_MAP = None).
    { induction C_TYPE_MAP as [|[k v] l IH]; simpl in *; auto.
      destruct (String.eqb_spec s k); subst; [tauto|].
      apply IH; tauto. }
    rewrite E; reflexivity.
Qed.

(** ** C1: the connection validator *)

(** The six checks of spec 4.2 as propositions over the project. *)
Definition connection_checks_hold (p : Project.t)
    (ps pp rs rp : string) : Prop :=
  exists a b x y,
    Project.get_component_by_uid p ps = Some a /\
    Project.get_component_by_uid p rs = Some b /\
    SoftwareComponent.get_port_by_uid a pp = Some x /\
    SoftwareComponent.get_port_by_uid b rp = Some y /\
    Port.direction x = PortDirection.PROVIDED /\
    Port.direction y = PortDirection.REQUIRED /\
    Port.interface_uid x = Port.interface_uid y /\
    ~ (exists c, In c (Project.connections p) /\
         PortConnection.provider_port_uid c = pp /\
         PortConnection.requester_port_uid c = rp).

(** C1 (confirmed): [validate_connection] succeeds exactly when both
    components resolve, both ports resolve on them, the provider port is
    provided, the requester port is required, both ports carry the same
    interface reference and no connection has the same
    (provider port, requester port) pair; the message it returns names the
    first violated rule in the spec's order, and none when it succeeds. *)
Theorem validate_connection_correct (p : Project.t) (ps pp rs rp : string) :
  (fst (Project.validate_connection p ps pp rs rp) = true
     <-> connection_checks_hold p ps pp rs rp) /\
  (fst (Project.validate_connection p ps pp rs rp) = true
     <-> spec_first_violated_rule p ps pp rs rp = None) /\
  reason_of_message (snd (Project.validate_connection p ps pp rs rp))
    = spec_first_violated_rule p ps pp rs rp.
Proof.
  unfold Project.validate_connection, spec_first_violated_rule,
    connection_checks_hold.
  destruct (Project.get_component_by_uid p ps) as [a|] eqn:Ha;
    [|repeat split; cbn; try discriminate;
      intros (a' & b' & x & y & H1 & _); discriminate].
  destruct (Project.get_component_by_uid p rs) as [b|] eqn:Hb;
    [|repeat split; cbn; try discriminate;
      intros (a' & b' & x & y & H1 & H2 & _); discriminate].
  destruct (SoftwareComponent.get_port_by_uid a pp) as [x|] eqn:Hx;
    [|repeat split; cbn; try discriminate;
      intros (a' & b' & x' & y & H1 & H2 & H3 & _);
      injection H1 as <-; congruence].
  destruct (SoftwareComponent.get_port_by_uid b rp) as [y|] eqn:Hy;
    [|repeat split; cbn; try discriminate;
      intros (a' & b' & x' & y' & H1 & H2 & H3 & H4 & _);
      injection H2 as <-; congruence].
  assert (Hch : (exists a' b' x' y',
     Some a = Some a' /\ Some b = Some b' /\
     SoftwareComponent.get_port_by_uid a' pp = Some x' /\
     SoftwareComponent.get_port_by_uid b' rp = Some y' /\
     Port.direction x' = PortDirection.PROVIDED /\
     Port.direction y' = PortDirection.REQUIRED /\
     Port.interface_uid x' = Port.interface_uid y' /\
     ~ (exists c, In c (Project.connections p) /\
          PortConnection.provider_port_uid c = pp /\
          PortConnection.requester_port_uid c = rp))
     <-> (Port.direction x = PortDirection.PROVIDED /\
          Port.direction y = PortDirection.REQUIRED /\
          Port.interface_uid x = Port.interface_uid y /\
          ~ (exists c, In c (Project.connections p) /\
               PortConnection.provider_port_uid c = pp /\
               PortConnection.requester_port_uid c = rp))).
  { split.
    - intros (a' & b' & x' & y' & E1 & E2 & E3 & E4 & R).
      injection E1 as <-; injection E2 as <-.
      rewrite Hx in E3; rewrite Hy in E4.
      injection E3 as <-; injection E4 as <-; exact R.
    - intros R; exists a, b, x, y; auto. }
  rewrite Hch; clear Hch.
  destruct (dir_eqb (Port.direction x) PortDirection.PROVIDED) eqn:D1;
    [|apply Bool.not_true_iff_false in D1; rewrite dir_eqb_true in D1;
      repeat split; cbn; try discriminate; tauto].
  destruct (dir_eqb (Port.direction y) PortDirection.REQUIRED) eqn:D2;
    [|apply Bool.not_true_iff_false in D2; rewrite dir_eqb_true in D2;
      repeat split; cbn; try discriminate; tauto].
  apply dir_eqb_true in D1, D2.
  destruct (opt_str_eqb (Port.interface_uid x) (Port.interface_uid y)) eqn:I;
    [|apply Bool.not_true_iff_false in I; rewrite opt_str_eqb_true in I;
      repeat split; cbn; try discriminate; tauto].
  apply opt_str_eqb_true in I.
  destruct (existsb _ (Project.connections p)) eqn:E.
  - apply existsb_conn_true in E.
    repeat split; cbn; try discriminate; tauto.
  - assert (NE : ~ (exists c, In c (Project.connections p) /\
               PortConnection.provider_port_uid c = pp /\
               PortConnection.requester_port_uid c = rp)).
    { rewrite <- existsb_conn_true, E; discriminate. }
    repeat split; cbn; tauto.
Qed.

(** ** C6: ports without an interface reference *)

Definition port_none_p : Port.t :=
  Port.mk "Pp" PortDirection.PROVIDED None "" "pp1".
Definition port_none_r : Port.t :=
  Port.mk "Rp" PortDirection.REQUIRED None "" "rp1".
Definition swc_a : SoftwareComponent.t :=
  SoftwareComponent.mk "A" [port_none_p] [] "" "swcA".
Definition swc_b : SoftwareComponent.t :=
  SoftwareComponent.mk "B" [port_none_r] [] "" "swcB".
Definition project_no_iface : Project.t :=
  Project.mk "P" "" [] [] [] [] [] [swc_a; swc_b] [].

(** C6 (code bug): two resolved ports of the right directions that
    both have [interface_uid = None] are accepted by
    [validate_connection], since [None != None] is false; a port with no
    interface reference can thus be connected. *)
Lemma validate_connection_both_none_accepted :
  Port.interface_uid port_none_p = None /\
  Port.interface_uid port_none_r = None /\
  Project.validate_connection project_no_iface "swcA" "pp1" "swcB" "rp1"
    = (true, "Valid").
Proof. repeat split. Qed.

(** ** C7: lookup of the implementation type of an application type *)

(** C7 (confirmed): [get_impl_type_for_app_type] is decided by the first
    mapping (in list order) whose [app_type_uid] is [u]: it returns the
    implementation type that mapping references, whatever later mappings
    for [u] say, and [None] when no mapping has [app_type_uid = u]. *)
Theorem get_impl_type_for_app_type_first_match (p : Project.t) (u : string) :
  (forall pre m post,
     Project.data_type_mappings p = (pre ++ m :: post)%list ->
     Forall (fun m' => DataTypeMapping.app_type_uid m' <> u) pre ->
     DataTypeMapping.app_type_uid m = u ->
     Project.get_impl_type_for_app_type p u
       = Project.get_impl_type_by_uid p (DataTypeMapping.impl_type_uid m)) /\
  (Forall (fun m' => DataTypeMapping.app_type_uid m' <> u)
          (Project.data_type_mappings p) ->
   Project.get_impl_type_for_app_type p u = None).
Proof.
  unfold Project.get_impl_type_for_app_type. split.
  - intros pre m post -> Hpre Hm.
    induction pre as [|m' pre IH]; simpl.
    + rewrite Hm, String.eqb_refl; reflexivity.
    + inversion Hpre as [|? ? Hm' Hrest]; subst.
      apply String.eqb_neq in Hm'; rewrite Hm'. apply IH; exact Hrest.
  - induction (Project.data_type_mappings p) as [|m ms IH]; simpl; intros H.
    + reflexivity.
    + inversion H as [|? ? Hm Hrest]; subst.
      apply String.eqb_neq in Hm; rewrite Hm; apply IH; exact Hrest.
Qed.

Definition mapping_project : Project.t :=
  Project.mk "P" "" [] []
    [ImplementationDataType.mk "I1" BaseDataType.UINT16 false 1 false [] "" "idt1";
     ImplementationDataType.mk "I2" BaseDataType.UINT8 false 1 false [] "" "idt2"]
    [DataTypeMapping.mk "adt1" "idt1" "m1"; DataTypeMapping.mk "adt1" "idt2" "m2"]
    [] [] [].

Lemma get_impl_type_for_app_type_first_match_witness :
  Project.get_impl_type_for_app_type mapping_project "adt1"
    = Some (ImplementationDataType.mk "I1" BaseDataType.UINT16 false 1 false [] "" "idt1").
Proof.
  destruct (get_impl_type_for_app_type_first_match mapping_project "adt1")
    as [H _].
  rewrite (H [] (DataTypeMapping.mk "adt1" "idt1" "m1")
             [DataTypeMapping.mk "adt1" "idt2" "m2"] eq_refl (Forall_nil _) eq_refl).
  reflexivity.
Defined.

(** ** C10: deleting a software component *)

(** A connection touches component [a] when one of its port uids is the
    uid of one of [a]'s ports. *)
Definition touches (a : SoftwareComponent.t) (c : PortConnection.t) : bool :=
  existsb (fun q => String.eqb (Port.uid q) (PortConnection.provider_port_uid c)
                    || String.eqb (Port.uid q) (PortConnection.requester_port_uid c))
          (SoftwareComponent.ports a).

Lemma str_in_map_uid (s : string) (ps : list Port.t) :
  str_in s (map Port.uid ps) = existsb (fun q => String.eqb (Port.uid q) s) ps.
Proof.
  unfold str_in; induction ps as [|q ps IH]; simpl; auto.
  rewrite IH, (String.eqb_sym s); reflexivity.
Qed.

Lemma list_remove_first {A} (eq_dec : forall x y : A, {x = y} + {x <> y})
    (x : A) pre post :
  ~ In x pre -> list_remove eq_dec x (pre ++ x :: post)%list = Ok (pre ++ post)%list.
Proof.
  induction pre as [|y pre IH]; simpl; intros Hn.
  - destruct (eq_dec x x); congruence.
  - destruct (eq_dec y x); [subst; tauto|].
    rewrite IH by tauto; reflexivity.
Qed.

(** C10 (confirmed): when [a] is in the component list, deleting it
    removes that component and exactly the connections touching one of
    its ports' uids, keeping the order of the rest, and leaves the name,
    description, compu methods, data types, mappings and interfaces as
    they were. *)
Theorem delete_swc_frame (p : Project.t) (a : SoftwareComponent.t)
    (pre post : list SoftwareComponent.t)
    (Hc : Project.components p = (pre ++ a :: post)%list)
    (Hfirst : ~ In a pre) :
  let (r, p') := delete_swc p a in
  r = Ok tt /\
  Project.components p' = (pre ++ post)%list /\
  Project.connections p'
    = filter (fun c => negb (touches a c)) (Project.connections p) /\
  (forall c, In c (Project.connections p') <->
             In c (Project.connections p) /\ touches a c = false) /\
  Project.name p' = Project.name p /\
  Project.description p' = Project.description p /\
  Project.compu_methods p' = Project.compu_methods p /\
  Project.application_data_types p' = Project.application_data_types p /\
  Project.implementation_data_types p' = Project.implementation_data_types p /\
  Project.data_type_mappings p' = Project.data_type_mappings p /\
  Project.interfaces p' = Project.interfaces p.
Proof.
  unfold delete_swc. cbn [Project.set_connections Project.components].
  rewrite Hc, (list_remove_first _ _ _ _ Hfirst). cbn.
  assert (Hf : filter (fun c =>
      negb (str_in (PortConnection.provider_port_uid c)
              (map Port.uid (SoftwareComponent.ports a))) &&
      negb (str_in (PortConnection.requester_port_uid c)
              (map Port.uid (SoftwareComponent.ports a))))
      (Project.connections p)
    = filter (fun c => negb (touches a c)) (Project.connections p)).
  { apply filter_ext; intros c. rewrite !str_in_map_uid. unfold touches.
    induction (SoftwareComponent.ports a) as [|q qs IH]; simpl; auto.
    destruct (String.eqb (Port.uid q) (PortConnection.provider_port_uid c)),
             (String.eqb (Port.uid q) (PortConnection.requester_port_uid c));
      simpl; auto; rewrite andb_false_r; reflexivity. }
  rewrite Hf.
  repeat split; try reflexivity;
    intros; rewrite filter_In, Bool.negb_true_iff in *; tauto.
Qed.

Definition conn_ab : PortConnection.t :=
  PortConnection.mk "C" "swcA" "pp1" "swcB" "rp1" "" "c1".
Definition conn_other : PortConnection.t :=
  PortConnection.mk "D" "swcX" "px" "swcY" "ry" "" "c2".
Definition project_ab : Project.t :=
  Project.mk "P" "" [] [] [] [] [] [swc_a; swc_b] [conn_ab; conn_other].

Lemma delete_swc_frame_witness :
  delete_swc project_ab swc_a
    = (Ok tt, Project.mk "P" "" [] [] [] [] [] [swc_b] [conn_other]).
Proof.
  pose proof (delete_swc_frame project_ab swc_a [] [swc_b] eq_refl
                (fun H => H)) as H.
  destruct (delete_swc project_ab swc_a) as [r p'].
  destruct H as (Hr & Hc & Hn & _ & H1 & H2 & H3 & H4 & H5 & H6 & H7).
  subst r. destruct p'; cbn in *; subst; reflexivity.
Defined.

(** ** C3: the dict round trip of a project *)

Lemma mapM_map_roundtrip {A} (f : Value -> result A) (g : A -> Value)
    (l : list A) :
  (forall x, f (g x) = Ok x) -> mapM f (map g l) = Ok l.
Proof.
  intros H; induction l as [|x l IH]; simpl; auto.
  rewrite H; simpl; rewrite IH; reflexivity.
Qed.

Lemma as_num_roundtrip n : as_num (num_to_value n) = Ok n.
Proof. destruct n; reflexivity. Qed.

Lemma as_opt_num_roundtrip n : as_opt_num (opt_num_to_value n) = Ok n.
Proof. destruct n as [[]|]; reflexivity. Qed.

Lemma as_opt_str_roundtrip s : as_opt_str (opt_str_to_value s) = Ok s.
Proof. destruct s; reflexivity. Qed.

Lemma PortDirection_roundtrip x :
  PortDirection.of_value (VStr (PortDirection.value x)) = Ok x.
Proof. destruct x; reflexivity. Qed.
Lemma InterfaceType_roundtrip x :
  InterfaceType.of_value (VStr (InterfaceType.value x)) = Ok x.
Proof. destruct x; reflexivity. Qed.
Lemma BaseDataType_roundtrip x :
  BaseDataType.of_value (VStr (BaseDataType.value x)) = Ok x.
Proof. destruct x; reflexivity. Qed.
Lemma AppDataCategory_roundtrip x :
  AppDataCategory.of_value (VStr (AppDataCategory.value x)) = Ok x.
Proof. destruct x; reflexivity. Qed.
Lemma ArgumentDirection_roundtrip x :
  ArgumentDirection.of_value (VStr (ArgumentDirection.value x)) = Ok x.
Proof. destruct x; reflexivity. Qed.

Create Rewrite HintDb roundtrip.
#[export] Hint Rewrite as_num_roundtrip as_opt_num_roundtrip
  as_opt_str_roundtrip PortDirection_roundtrip InterfaceType_roundtrip
  BaseDataType_roundtrip AppDataCategory_roundtrip ArgumentDirection_roundtrip
  : roundtrip.

(** Unfold one codec pair, then rewrite the field round trips. *)
Ltac codec_roundtrip :=
  cbn -[as_num as_opt_num as_opt_str num_to_value opt_num_to_value
        opt_str_to_value PortDirection.of_value PortDirection.value
        InterfaceType.of_value InterfaceType.value BaseDataType.of_value
        BaseDataType.value AppDataCategory.of_value AppDataCategory.value
        ArgumentDirection.of_value ArgumentDirection.value mapM map];
  autorewrite with roundtrip; cbn -[mapM map].

Lemma pair_str_roundtrip k (m : string * string) :
  k <> "name" ->
  pair_from_dict k as_str (VDict [("name", VStr (fst m)); (k, VStr (snd m))])
    = Ok m.
Proof.
  intros Hk; destruct m as [a b]; unfold pair_from_dict; cbn.
  unfold dindex; cbn.
  destruct (String.eqb k "name") eqn:E;
    [apply String.eqb_eq in E; contradiction|].
  rewrite String.eqb_refl; reflexivity.
Qed.

Lemma CompuMethod_roundtrip u x :
  CompuMethod.from_dict u (CompuMethod.to_dict x) = Ok x.
Proof. destruct x; codec_roundtrip; reflexivity. Qed.

Lemma ApplicationDataType_roundtrip u x :
  ApplicationDataType.from_dict u (ApplicationDataType.to_dict x) = Ok x.
Proof.
  destruct x; codec_roundtrip.
  rewrite mapM_map_roundtrip
    by (intros m; apply pair_str_roundtrip; discriminate).
  cbn -[mapM map].
  rewrite mapM_map_roundtrip by (intros [a b]; reflexivity).
  cbn -[as_num as_opt_num as_opt_str num_to_value opt_num_to_value
        opt_str_to_value AppDataCategory.of_value AppDataCategory.value].
  autorewrite with roundtrip; reflexivity.
Qed.

Lemma ImplementationDataType_roundtrip u x :
  ImplementationDataType.from_dict u (ImplementationDataType.to_dict x) = Ok x.
Proof.
  destruct x; codec_roundtrip.
  rewrite mapM_map_roundtrip
    by (intros m; apply pair_str_roundtrip; discriminate).
  cbn -[BaseDataType.of_value BaseDataType.value].
  autorewrite with roundtrip; reflexivity.
Qed.

Lemma DataTypeMapping_roundtrip u x :
  DataTypeMapping.from_dict u (DataTypeMapping.to_dict x) = Ok x.
Proof. destruct x; reflexivity. Qed.

Lemma DataElement_roundtrip u x :
  DataElement.from_dict u (DataElement.to_dict x) = Ok x.
Proof. destruct x; codec_roundtrip; reflexivity. Qed.

Lemma OperationArgument_roundtrip u x :
  OperationArgument.from_dict u (OperationArgument.to_dict x) = Ok x.
Proof. destruct x; codec_roundtrip; reflexivity. Qed.

Lemma Operation_roundtrip u x :
  Operation.from_dict u (Operation.to_dict x) = Ok x.
Proof.
  destruct x; codec_roundtrip.
  rewrite mapM_map_roundtrip by apply OperationArgument_roundtrip.
  codec_roundtrip; reflexivity.
Qed.

Lemma Interface_roundtrip u x :
  Interface.from_dict u (Interface.to_dict x) = Ok x.
Proof.
  destruct x; codec_roundtrip.
  rewrite mapM_map_roundtrip by apply DataElement_roundtrip.
  cbn -[mapM map].
  rewrite mapM_map_roundtrip by apply Operation_roundtrip.
  reflexivity.
Qed.

Lemma Port_roundtrip u x : Port.from_dict u (Port.to_dict x) = Ok x.
Proof. destruct x; codec_roundtrip; reflexivity. Qed.

Lemma Runnable_roundtrip u x : Runnable.from_dict u (Runnable.to_dict x) = Ok x.
Proof. destruct x; reflexivity. Qed.

Lemma SoftwareComponent_roundtrip u x :
  SoftwareComponent.from_dict u (SoftwareComponent.to_dict x) = Ok x.
Proof.
  destruct x; codec_roundtrip.
  rewrite mapM_map_roundtrip by apply Port_roundtrip.
  cbn -[mapM map].
  rewrite mapM_map_roundtrip by apply Runnable_roundtrip.
  reflexivity.
Qed.

Lemma PortConnection_roundtrip u x :
  PortConnection.from_dict u (PortConnection.to_dict x) = Ok x.
Proof. destruct x; reflexivity. Qed.

(** C3 (confirmed): decoding the dict of a project gives back the project:
    the same name and description, and the same entity lists in the same
    order with every field, nested list and uid as they were. *)
Theorem project_dict_roundtrip (new_uid : string) (p : Project.t) :
  Project.from_dict new_uid (Project.to_dict p) = Ok p.
Proof.
  destruct p; unfold Project.from_dict, Project.to_dict, Project.list_field.
  cbn -[mapM map].
  rewrite mapM_map_roundtrip by apply CompuMethod_roundtrip. cbn -[mapM map].
  rewrite mapM_map_roundtrip by apply ApplicationDataType_roundtrip.
  cbn -[mapM map].
  rewrite mapM_map_roundtrip by apply ImplementationDataType_roundtrip.
  cbn -[mapM map].
  rewrite mapM_map_roundtrip by apply DataTypeMapping_roundtrip.
  cbn -[mapM map].
  rewrite mapM_map_roundtrip by apply Interface_roundtrip. cbn -[mapM map].
  rewrite mapM_map_roundtrip by apply SoftwareComponent_roundtrip.
  cbn -[mapM map].
  rewrite mapM_map_roundtrip by apply PortConnection_roundtrip.
  reflexivity.
Qed.

(** ** C8: unknown enum tags make decoding fail *)

Lemma enum_of_value_unknown {T} (members : list T) value err s :
  ~ In s (map value members) ->
  enum_of_value members value err (VStr s) = Err (ValueError err).
Proof.
  intros Hn; cbn.
  destruct (find (fun x => String.eqb (value x) s) members) eqn:F; auto.
  apply find_some in F as [Hin Heq]; apply String.eqb_eq in Heq; subst.
  exfalso; apply Hn, in_map, Hin.
Qed.

(** The field [key] of the record holds a string outside [tags]. *)
Definition bad_tag (d : dict) (key : string) (tags : list string) : Prop :=
  exists s, dlookup key d = Some (VStr s) /\ ~ In s tags.

Lemma bad_tag_dget {T} (members : list T) value err d key default :
  bad_tag d key (map value members) ->
  enum_of_value members value err (dget d key default) = Err (ValueError err).
Proof.
  intros (s & Hs & Hn); unfold dget; rewrite Hs.
  apply enum_of_value_unknown, Hn.
Qed.

(** Follow a decoder's binds up to the step that fails. *)
Ltac chase_err_rest :=
  repeat match goal with
  | |- is_err (Err _) = true => reflexivity
  | |- is_err (bind (Err _) _) = true => reflexivity
  | |- is_err (bind ?m _) = true => destruct m; cbn [bind]; [|reflexivity]
  end.

Lemma mapM_err {A B} (f : A -> result B) (l : list A) x :
  In x l -> is_err (f x) = true -> is_err (mapM f l) = true.
Proof.
  induction l as [|y l IH]; simpl; [tauto|].
  intros [-> | Hin] Hx.
  - destruct (f x); [discriminate|reflexivity].
  - destruct (f y); cbn [bind]; [|reflexivity].
    specialize (IH Hin Hx). destruct (mapM f l); [discriminate|reflexivity].
Qed.

Lemma list_field_err {A} (d : dict) (k : string) (f : Value -> result A) l x :
  dlookup k d = Some (VList l) -> In x l -> is_err (f x) = true ->
  is_err (Project.list_field d k f) = true.
Proof.
  intros Hk Hin Hx; unfold Project.list_field, dget; rewrite Hk; cbn [as_list bind].
  eapply mapM_err; eauto.
Qed.

Lemma err_bind_ok {A B} (m : result A) (k : A -> result B) :
  is_err m = true -> is_err (bind m k) = true.
Proof. destruct m; [discriminate|reflexivity]. Qed.

Ltac chase_err_bool H :=
  repeat match goal with
  | |- is_err (bind ?m _) = true =>
      first [ apply err_bind_ok; exact H
            | destruct m; cbn [bind]; [|reflexivity] ]
  end.

Lemma dget_lookup d k v default : dlookup k d = Some v -> dget d k default = v.
Proof. unfold dget; intros ->; reflexivity. Qed.

(** [x] is one of the records listed under [key]. *)
Definition record_in (d : dict) (key : string) (x : Value) : Prop :=
  exists l, dlookup key d = Some (VList l) /\ In x l.

(** A nested list field whose decoding fails makes the enclosing decoder
    fail. *)
Ltac nested_err :=
  let d := fresh "d" in let x := fresh "x" in let l := fresh "l" in
  let Hk := fresh "Hk" in let Hin := fresh "Hin" in let Hx := fresh "Hx" in
  let Hm := fresh "Hm" in
  intros d x (l & Hk & Hin) Hx;
  match goal with |- is_err (?f _ (VDict d)) = true => unfold f end;
  cbn [as_dict bind];
  rewrite (dget_lookup _ _ _ _ Hk); cbn [as_list bind];
  pose proof (mapM_err _ _ _ Hin Hx) as Hm;
  chase_err_bool Hm.

Ltac doc_err :=
  let d := fresh "d" in let x := fresh "x" in let l := fresh "l" in
  let Hk := fresh "Hk" in let Hin := fresh "Hin" in let Hx := fresh "Hx" in
  let Hm := fresh "Hm" in
  intros d x (l & Hk & Hin) Hx;
  unfold Project.from_dict; cbn [as_dict bind];
  pose proof (list_field_err _ _ _ _ _ Hk Hin Hx) as Hm;
  chase_err_bool Hm.

Ltac tag_err :=
  let d := fresh "d" in let Hb := fresh "Hb" in
  intros d Hb;
  match goal with |- is_err (?f _ (VDict d)) = true => unfold f end;
  unfold PortDirection.of_value, InterfaceType.of_value, BaseDataType.of_value,
    AppDataCategory.of_value, ArgumentDirection.of_value;
  cbn [as_dict bind];
  first [ erewrite (bad_tag_dget PortDirection.all _ _ _ _ _ Hb)
        | erewrite (bad_tag_dget InterfaceType.all _ _ _ _ _ Hb)
        | erewrite (bad_tag_dget BaseDataType.all _ _ _ _ _ Hb)
        | erewrite (bad_tag_dget AppDataCategory.all _ _ _ _ _ Hb)
        | erewrite (bad_tag_dget ArgumentDirection.all _ _ _ _ _ Hb) ];
  chase_err_rest.

(** C8 (confirmed): a record whose enum-tagged field (a port's or an
    argument's [direction], an interface's [interface_type], a [base_type]
    or [return_base_type], an application type's [category]) holds a
    string outside the tag set fails to decode (the [ValueError] of the
    [Enum] constructor, or an earlier error of the same record); no default
    is substituted.  The failure propagates through the enclosing records
    up to [Project.from_dict], so the whole document load fails. *)
Theorem unknown_enum_tag_fails (u : string) :
  (forall d, bad_tag d "direction" PortDirection.tags ->
     is_err (Port.from_dict u (VDict d)) = true) /\
  (forall d, bad_tag d "interface_type" InterfaceType.tags ->
     is_err (Interface.from_dict u (VDict d)) = true) /\
  (forall d, bad_tag d "base_type" BaseDataType.tags ->
     is_err (ImplementationDataType.from_dict u (VDict d)) = true) /\
  (forall d, bad_tag d "base_type" BaseDataType.tags ->
     is_err (DataElement.from_dict u (VDict d)) = true) /\
  (forall d, bad_tag d "base_type" BaseDataType.tags ->
     is_err (OperationArgument.from_dict u (VDict d)) = true) /\
  (forall d, bad_tag d "return_base_type" BaseDataType.tags ->
     is_err (Operation.from_dict u (VDict d)) = true) /\
  (forall d, bad_tag d "category" AppDataCategory.tags ->
     is_err (ApplicationDataType.from_dict u (VDict d)) = true) /\
  (forall d, bad_tag d "direction" ArgumentDirection.tags ->
     is_err (OperationArgument.from_dict u (VDict d)) = true) /\
  (forall d x, record_in d "ports" x -> is_err (Port.from_dict u x) = true ->
     is_err (SoftwareComponent.from_dict u (VDict d)) = true) /\
  (forall d x, record_in d "arguments" x ->
     is_err (OperationArgument.from_dict u x) = true ->
     is_err (Operation.from_dict u (VDict d)) = true) /\
  (forall d x, record_in d "data_elements" x ->
     is_err (DataElement.from_dict u x) = true ->
     is_err (Interface.from_dict u (VDict d)) = true) /\
  (forall d x, record_in d "operations" x ->
     is_err (Operation.from_dict u x) = true ->
     is_err (Interface.from_dict u (VDict d)) = true) /\
  (forall d x, record_in d "application_data_types" x ->
     is_err (ApplicationDataType.from_dict u x) = true ->
     is_err (Project.from_dict u (VDict d)) = true) /\
  (forall d x, record_in d "implementation_data_types" x ->
     is_err (ImplementationDataType.from_dict u x) = true ->
     is_err (Project.from_dict u (VDict d)) = true) /\
  (forall d x, record_in d "interfaces" x ->
     is_err (Interface.from_dict u x) = true ->
     is_err (Project.from_dict u (VDict d)) = true) /\
  (forall d x, record_in d "components" x ->
     is_err (SoftwareComponent.from_dict u x) = true ->
     is_err (Project.from_dict u (VDict d)) = true).
Proof.
  repeat split;
    first [ solve [tag_err] | solve [nested_err] | solve [doc_err] ].
Qed.

Definition doc_bad_port : dict :=
  [("name", VStr "P");
   ("components",
     VList [VDict [("name", VStr "A");
                   ("ports", VList [VDict [("name", VStr "Pp");
                                           ("direction", VStr "sideways")]])]])].

Lemma unknown_enum_tag_fails_witness :
  is_err (Project.from_dict "u0" (VDict doc_bad_port)) = true.
Proof.
  destruct (unknown_enum_tag_fails "u0") as
    (Hport & _ & _ & _ & _ & _ & _ & _ & Hswc & _ & _ & _ & _ & _ & _ & Hdoc).
  apply (Hdoc _ (VDict [("name", VStr "A");
                        ("ports", VList [VDict [("name", VStr "Pp");
                                                ("direction", VStr "sideways")]])])).
  - eexists; split; [reflexivity | left; reflexivity].
  - apply (Hswc _ (VDict [("name", VStr "Pp"); ("direction", VStr "sideways")])).
    + eexists; split; [reflexivity | left; reflexivity].
    + apply Hport. exists "sideways"; split; [reflexivity|].
      cbn; intros [H|[H|H]]; [discriminate | discriminate | exact H].
Defined.

(** ** C2: the merged view *)

Definition entity_count {A} (f : Module_.t -> list A) (ms : list Module_.t) : nat :=
  list_sum (map (fun m => length (f m)) ms).

Lemma length_flat_map_count {A} (f : Module_.t -> list A) ms :
  length (flat_map f ms) = entity_count f ms.
Proof.
  unfold entity_count; induction ms as [|m ms IH]; simpl; auto.
  rewrite length_app, IH; reflexivity.
Qed.

Lemma flat_map_concat_map {A B} (f : A -> list B) l :
  flat_map f l = concat (map f l).
Proof. induction l as [|x l IH]; simpl; auto. rewrite IH; reflexivity. Qed.

(** C2 (confirmed): when no merged view is cached, [get_merged_project]
    builds it from the master's name and description and the
    concatenation, in the order of the loaded-module dict, of every
    module's seven entity lists, without dropping duplicates (each merged
    list is as long as the module lists together), appends the master's
    global connections after all module connections, and caches the
    result. *)
Theorem get_merged_project_concat (st : MFP) (Hnone : merged st = None) :
  let ms := map snd (modules st) in
  let (p, st') := get_merged_project st in
  Project.name p = MasterProject.name (master st) /\
  Project.description p = MasterProject.description (master st) /\
  Project.compu_methods p = concat (map Module_.compu_methods ms) /\
  Project.application_data_types p
    = concat (map Module_.application_data_types ms) /\
  Project.implementation_data_types p
    = concat (map Module_.implementation_data_types ms) /\
  Project.data_type_mappings p = concat (map Module_.data_type_mappings ms) /\
  Project.interfaces p = concat (map Module_.interfaces ms) /\
  Project.components p = concat (map Module_.components ms) /\
  Project.connections p
    = (concat (map Module_.connections ms)
       ++ MasterProject.global_connections (master st))%list /\
  length (Project.compu_methods p) = entity_count Module_.compu_methods ms /\
  length (Project.application_data_types p)
    = entity_count Module_.application_data_types ms /\
  length (Project.implementation_data_types p)
    = entity_count Module_.implementation_data_types ms /\
  length (Project.data_type_mappings p)
    = entity_count Module_.data_type_mappings ms /\
  length (Project.interfaces p) = entity_count Module_.interfaces ms /\
  length (Project.components p) = entity_count Module_.components ms /\
  length (Project.connections p)
    = (entity_count Module_.connections ms
       + length (MasterProject.global_connections (master st)))%nat /\
  merged st' = Some p.
Proof.
  cbv zeta. unfold get_merged_project; rewrite Hnone; cbn.
  rewrite length_app, !length_flat_map_count, !flat_map_concat_map.
  repeat split.
Qed.

Definition module_with_a : Module_.t :=
  Module_.mk "M" "" [] [] [] [] [] [swc_a] [].
Definition state_two_modules : MFP :=
  mkMFP (MasterProject.mk "Master" "" [] [conn_ab]) (Some "/p/master.yaml")
    [("/p/m1.yaml", module_with_a); ("/p/m2.yaml", module_with_a)]
    [("M", "/p/m2.yaml")] None [] [].

(** Two modules declaring the same component: the merged list holds it
    twice, and the global connection comes last. *)
Lemma get_merged_project_concat_witness :
  Project.components (fst (get_merged_project state_two_modules))
    = [swc_a; swc_a] /\
  Project.connections (fst (get_merged_project state_two_modules)) = [conn_ab].
Proof.
  pose proof (get_merged_project_concat state_two_modules eq_refl) as H.
  cbv zeta in H.
  destruct (get_merged_project state_two_modules) as [p st'] eqn:E.
  destruct H as (_ & _ & _ & _ & _ & _ & _ & Hc & Hn & _).
  cbn [fst]; rewrite Hc, Hn; split; reflexivity.
Defined.

(** ** C9: missing versus malformed module files *)

(** What [load_module] reads and decodes at [p]. *)
Definition module_decode (u : string) (st : MFP) (p : string)
    : result Module_.t :=
  v <- read_yaml st p ;; Module_.from_dict u v.

Lemma read_yaml_fs st st' p : fs st = fs st' -> read_yaml st p = read_yaml st' p.
Proof. unfold read_yaml; intros ->; reflexivity. Qed.

Lemma path_exists_fs st st' p : fs st = fs st' -> path_exists st p = path_exists st' p.
Proof. unfold path_exists; intros ->; reflexivity. Qed.

Lemma module_decode_fs u st st' p :
  fs st = fs st' -> module_decode u st p = module_decode u st' p.
Proof. intros H; unfold module_decode; rewrite (read_yaml_fs _ _ _ H); reflexivity. Qed.

Lemma load_module_fs u p n st : fs (snd (load_module u p n st)) = fs st.
Proof.
  unfold load_module; destruct (read_yaml st p) as [v|]; cbn; auto.
  destruct (Module_.from_dict u v); reflexivity.
Qed.

Lemma load_module_err u p n st :
  is_err (module_decode u st p) = true ->
  exists e, load_module u p n st = (Err e, st).
Proof.
  unfold module_decode, load_module; destruct (read_yaml st p) as [v|]; cbn;
    [|eauto].
  destruct (Module_.from_dict u v); cbn; [discriminate|eauto].
Qed.

Lemma load_module_ok u p n st :
  is_err (module_decode u st p) = false ->
  exists m, fst (load_module u p n st) = Ok m.
Proof.
  unfold module_decode, load_module; destruct (read_yaml st p) as [v|]; cbn;
    [|discriminate].
  destruct (Module_.from_dict u v); cbn; [eauto|discriminate].
Qed.

Lemma load_refs_fs u base rs st : fs (snd (load_refs u base rs st)) = fs st.
Proof.
  revert st; induction rs as [|r rs IH]; intros st; cbn; auto.
  destruct (ModuleReference.enabled r); [|apply IH].
  destruct (path_exists st _); [|rewrite IH; reflexivity].
  destruct (load_module u _ _ st) as [[m|e] st'] eqn:E; cbn; auto.
  - rewrite IH. change st' with (snd (Ok m, st')). rewrite <- E.
    apply load_module_fs.
  - change st' with (snd (@Err Module_.t e, st')). rewrite <- E.
    apply load_module_fs.
Qed.

Lemma load_refs_app u base pre rest st :
  fst (load_refs u base pre st) = Ok tt ->
  load_refs u base (pre ++ rest) st = load_refs u base rest (snd (load_refs u base pre st)).
Proof.
  revert st; induction pre as [|r pre IH]; intros st; cbn; auto.
  destruct (ModuleReference.enabled r); [|apply IH].
  destruct (path_exists st _); [|apply IH].
  destruct (load_module u _ _ st) as [[m|e] st']; cbn; [apply IH|discriminate].
Qed.

(** The manager right after [load_master] has replaced the master and
    cleared the module dicts, before the loop over the references. *)
Definition after_master_reset (st : MFP) (mpath : string) (m : MasterProject.t)
    : MFP :=
  set_module_paths (set_modules (set_master_path (set_master st m) (Some mpath)) []) [].

Lemma after_master_reset_fs st mpath m : fs (after_master_reset st mpath m) = fs st.
Proof. reflexivity. Qed.

Lemma load_master_loop u mpath st v m :
  read_yaml st mpath = Ok v -> MasterProject.from_dict u v = Ok m ->
  load_master u mpath st =
    match load_refs u (path_parent mpath) (MasterProject.modules m)
            (after_master_reset st mpath m) with
    | (Ok _, st') => (Ok tt, set_merged st' None)
    | (Err e, st') => (Err e, st')
    end.
Proof. intros Hr Hd; unfold load_master; rewrite Hr, Hd; reflexivity. Qed.

(** A master listing a malformed module and then a well-formed one. *)
Definition good_module_doc : Value :=
  Module_.to_dict (Module_.mk "Good" "" [] [] [] [] [] [swc_b] []).
Definition master_doc : Value :=
  MasterProject.to_dict
    (MasterProject.mk "Master" ""
       [ModuleReference.mk "bad.yaml" "Bad" "" true;
        ModuleReference.mk "good.yaml" "Good" "" true] []).
Definition fs_bad_then_good : list (string * FileContent) :=
  [("/p/master.yaml", Yaml master_doc); ("/p/bad.yaml", Malformed);
   ("/p/good.yaml", Yaml good_module_doc)].

(** C9 (code bug): the first enabled reference names an existing file
    that is not valid YAML, so [yaml.safe_load] raises inside
    [load_module]; [load_master] does not catch it and raises, and the
    second module, whose file loads on its own, is never loaded: the
    manager holds no module at all. *)
Lemma load_master_malformed_aborts :
  fst (load_master "u0" "/p/master.yaml" (new_project "New Project" fs_bad_then_good))
    = Err (YAMLError "/p/bad.yaml") /\
  modules (snd (load_master "u0" "/p/master.yaml"
                  (new_project "New Project" fs_bad_then_good))) = [] /\
  module_decode "u0" (new_project "New Project" fs_bad_then_good) "/p/good.yaml"
    = Ok (Module_.mk "Good" "" [] [] [] [] [] [swc_b] []) /\
  fst (load_module "u0" "/p/good.yaml" (Some "Good")
         (new_project "New Project" fs_bad_then_good))
    = Ok (Module_.mk "Good" "" [] [] [] [] [] [swc_b] []).
Proof. split; [|split; [|split]]; vm_compute; reflexivity. Qed.

(** ** C5: the merge cache *)

(** The memoised merged view, when there is one, is the recomputed one. *)
Definition cache_ok (st : MFP) : Prop :=
  forall p, merged st = Some p -> p = merge st.

Lemma cache_ok_none st : merged st = None -> cache_ok st.
Proof. unfold cache_ok; intros -> p H; discriminate H. Qed.

Lemma get_merged_project_cache_ok st :
  cache_ok st ->
  fst (get_merged_project st) = merge st /\ cache_ok (snd (get_merged_project st)).
Proof.
  unfold get_merged_project; intros H; destruct (merged st) as [p|] eqn:E.
  - split; [apply H; exact E|exact H].
  - split; [reflexivity|]. intros q Hq; injection Hq as <-; reflexivity.
Qed.

Lemma merge_set_module_enabled i b st : merge (set_module_enabled i b st) = merge st.
Proof. reflexivity. Qed.

Lemma load_master_ok_cache u p st st' :
  load_master u p st = (Ok tt, st') -> merged st' = None.
Proof.
  unfold load_master.
  destruct (read_yaml st p) as [v|]; [|discriminate].
  destruct (MasterProject.from_dict u v) as [m|]; [|discriminate].
  destruct (load_refs _ _ _ _) as [[[]|e] s]; intros H;
    [injection H as <-; reflexivity|discriminate H].
Qed.

Lemma load_module_ok_cache u p n st m st' :
  load_module u p n st = (Ok m, st') -> merged st' = None.
Proof.
  unfold load_module.
  destruct (read_yaml st p) as [v|]; [|discriminate].
  destruct (Module_.from_dict u v) as [m'|]; [|discriminate].
  intros H; injection H as _ <-; reflexivity.
Qed.

Lemma add_module_ok_cache m rp st st' :
  add_module m rp st = (Ok tt, st') -> merged st' = None.
Proof.
  unfold add_module; destruct (master_path st); [|discriminate].
  intros H; injection H as <-; reflexivity.
Qed.

Lemma remove_module_ok_cache n d st st' :
  remove_module n d st = (Ok tt, st') -> merged st' = None.
Proof.
  unfold remove_module; cbn.
  destruct (dict_get n (module_paths st)) as [path|];
    [|intros H; injection H as <-; reflexivity].
  destruct (dict_del path (modules st)) as [ms|]; [|discriminate]; cbn.
  destruct (dict_del n (module_paths st)) as [mp|]; [|discriminate]; cbn.
  intros H; injection H as <-; reflexivity.
Qed.

(** A manager that loaded the well-formed module of [fs_bad_then_good] and
    then read (and so memoised) the merged view. *)
Definition c5_before : MFP :=
  snd (get_merged_project
         (snd (run_mutation "u0" (MLoadModule "/p/good.yaml" None)
                 (new_project "New Project" fs_bad_then_good)))).

(** The same manager after the failed [load_master] of the master that
    lists the malformed [bad.yaml] first. *)
Definition c5_after : MFP :=
  snd (run_mutation "u0" (MLoadMaster "/p/master.yaml") c5_before).

(** C5 (code bug): every mutation that completes leaves the next
    [get_merged_project] equal to the recomputed merge; but [load_master]
    clears the cache only after its module loop, so when a module file
    is malformed it raises with the master and the module set already
    replaced and the old merged view still memoised, and the next
    [get_merged_project] returns that stale view. *)
Theorem merge_cache_transparency :
  (forall u op st st',
     cache_ok st -> run_mutation u op st = (Ok tt, st') ->
     cache_ok st' /\ fst (get_merged_project st') = merge st') /\
  (cache_ok c5_before /\
   fst (run_mutation "u0" (MLoadMaster "/p/master.yaml") c5_before)
     = Err (YAMLError "/p/bad.yaml") /\
   fst (get_merged_project c5_after) = merge c5_before /\
   fst (get_merged_project c5_after) <> merge c5_after).
Proof.
  split.
  - intros u op st st' Hc Hr.
    assert (Hc' : cache_ok st').
    { destruct op as [p|p n|m rp|n d|i b|]; cbn in Hr.
      - apply cache_ok_none; exact (load_master_ok_cache _ _ _ _ Hr).
      - destruct (load_module u p n st) as [[m|e] s] eqn:E; cbn in Hr;
          [|discriminate].
        injection Hr as <-. apply cache_ok_none.
        exact (load_module_ok_cache _ _ _ _ _ _ E).
      - apply cache_ok_none; exact (add_module_ok_cache _ _ _ _ Hr).
      - apply cache_ok_none; exact (remove_module_ok_cache _ _ _ _ Hr).
      - injection Hr as <-. intros q Hq. rewrite (Hc q Hq). reflexivity.
      - injection Hr as <-. apply cache_ok_none; reflexivity. }
    split; [exact Hc'|apply get_merged_project_cache_ok; exact Hc'].
  - split; [|split; [|split]].
    + apply (get_merged_project_cache_ok
               (snd (run_mutation "u0" (MLoadModule "/p/good.yaml" None)
                       (new_project "New Project" fs_bad_then_good)))).
      apply cache_ok_none; vm_compute; reflexivity.
    + vm_compute; reflexivity.
    + vm_compute; reflexivity.
    + vm_compute; congruence.
Qed.

(* ------------------------------------------------------------------ *)
(** * Further properties of the code *)

(** ** Lookups by uid *)

(** What a by-uid lookup over [l] returns: the first element whose uid is
    [u], or [None] when no element has that uid. *)
Definition first_with_uid {A} (uid : A -> string) (l : list A) (u : string)
    (r : option A) : Prop :=
  match r with
  | None => Forall (fun y => uid y <> u) l
  | Some x => exists pre post, l = (pre ++ x :: post)%list /\ uid x = u /\
                               Forall (fun y => uid y <> u) pre
  end.

Lemma find_first_with_uid {A} (uid : A -> string) (l : list A) u :
  first_with_uid uid l u (find (fun x => String.eqb (uid x) u) l).
Proof.
  induction l as [|y l IH]; cbn; [constructor|].
  destruct (String.eqb (uid y) u) eqn:E.
  - apply String.eqb_eq in E. exists [], l; repeat split; auto.
  - assert (Hy : uid y <> u) by (intros H; apply String.eqb_neq in E; auto).
    destruct (find _ l) as [x|]; cbn in *.
    + destruct IH as (pre & post & -> & Hx & Hpre).
      exists (y :: pre), post; repeat split; auto.
    + constructor; auto.
Qed.

(** X1: each by-uid lookup of [Project] ([get_interface_by_uid],
    [get_component_by_uid], [get_app_type_by_uid], [get_impl_type_by_uid],
    [get_compu_method_by_uid], [get_connection_by_uid]) and
    [SoftwareComponent.get_port_by_uid] returns the first element of its
    list with the uid, and [None] exactly when no element has it. *)
Theorem uid_lookups_first_match (p : Project.t) (swc : SoftwareComponent.t)
    (u : string) :
  first_with_uid Interface.uid (Project.interfaces p) u
    (Project.get_interface_by_uid p u) /\
  first_with_uid SoftwareComponent.uid (Project.components p) u
    (Project.get_component_by_uid p u) /\
  first_with_uid ApplicationDataType.uid (Project.application_data_types p) u
    (Project.get_app_type_by_uid p u) /\
  first_with_uid ImplementationDataType.uid (Project.implementation_data_types p) u
    (Project.get_impl_type_by_uid p u) /\
  first_with_uid CompuMethod.uid (Project.compu_methods p) u
    (Project.get_compu_method_by_uid p u) /\
  first_with_uid PortConnection.uid (Project.connections p) u
    (Project.get_connection_by_uid p u) /\
  first_with_uid Port.uid (SoftwareComponent.ports swc) u
    (SoftwareComponent.get_port_by_uid swc u).
Proof. repeat split; apply find_first_with_uid. Qed.

(** ** Compatible ports and connections *)

Lemma compatible_in p pp swc port :
  In (swc, port) (Project.get_compatible_ports_for_connection p pp) <->
  Port.direction pp = PortDirection.PROVIDED /\
  In swc (Project.components p) /\ In port (SoftwareComponent.ports swc) /\
  Port.direction port = PortDirection.REQUIRED /\
  Port.interface_uid port = Port.interface_uid pp /\
  Port.uid port <> Port.uid pp.
Proof.
  unfold Project.get_compatible_ports_for_connection.
  destruct (dir_eqb (Port.direction pp) PortDirection.PROVIDED) eqn:D; cbn.
  - apply dir_eqb_true in D. rewrite in_flat_map. split.
    + intros (s & Hs & Hin). apply in_map_iff in Hin as (q & Hq & Hf).
      injection Hq as <- <-. apply filter_In in Hf as [Hp Hc].
      apply andb_true_iff in Hc as [Hc H3]; apply andb_true_iff in Hc as [H1 H2].
      apply dir_eqb_true in H1; apply opt_str_eqb_true in H2.
      apply negb_true_iff, String.eqb_neq in H3. tauto.
    + intros (_ & Hs & Hp & H1 & H2 & H3). exists swc; split; auto.
      apply in_map_iff; exists port; split; auto. apply filter_In; split; auto.
      apply dir_eqb_true in H1; apply opt_str_eqb_true in H2.
      apply String.eqb_neq in H3. rewrite H1, H2, H3; reflexivity.
  - split; [tauto|]. intros [H _]. apply dir_eqb_true in H; congruence.
Qed.

(** X2: [get_compatible_ports_for_connection] returns nothing for a port
    that is not provided; for a provided port it lists exactly the pairs of
    a component of the project and one of its required ports that has the
    same interface uid (both [None] included) and another uid. *)
Theorem get_compatible_ports_for_connection_spec (p : Project.t) (pp : Port.t) :
  (Port.direction pp <> PortDirection.PROVIDED ->
   Project.get_compatible_ports_for_connection p pp = []) /\
  (Port.direction pp = PortDirection.PROVIDED ->
   forall swc port,
     In (swc, port) (Project.get_compatible_ports_for_connection p pp) <->
     In swc (Project.components p) /\ In port (SoftwareComponent.ports swc) /\
     Port.direction port = PortDirection.REQUIRED /\
     Port.interface_uid port = Port.interface_uid pp /\
     Port.uid port <> Port.uid pp).
Proof.
  split.
  - intros Hn. unfold Project.get_compatible_ports_for_connection.
    destruct (dir_eqb _ _) eqn:D; [apply dir_eqb_true in D; contradiction|].
    reflexivity.
  - intros Hp swc port. rewrite compatible_in. tauto.
Qed.

Lemma find_in {A} (f : A -> bool) l x : find f l = Some x -> In x l /\ f x = true.
Proof. apply find_some. Qed.

(** X3: a connection [validate_connection] accepts between two distinct
    port uids joins a provided port to one of the ports
    [get_compatible_ports_for_connection] lists for it; conversely, for a
    listed pair whose components and ports are the ones the uid lookups
    find, [validate_connection] accepts exactly when no existing
    connection already joins the two port uids. *)
Theorem validate_connection_compatible (p : Project.t) :
  (forall a b c d,
     fst (Project.validate_connection p a b c d) = true -> b <> d ->
     exists ps pp rs rp,
       Project.get_component_by_uid p a = Some ps /\
       SoftwareComponent.get_port_by_uid ps b = Some pp /\
       Project.get_component_by_uid p c = Some rs /\
       SoftwareComponent.get_port_by_uid rs d = Some rp /\
       In (rs, rp) (Project.get_compatible_ports_for_connection p pp)) /\
  (forall ps pp rs rp,
     Project.get_component_by_uid p (SoftwareComponent.uid ps) = Some ps ->
     SoftwareComponent.get_port_by_uid ps (Port.uid pp) = Some pp ->
     Project.get_component_by_uid p (SoftwareComponent.uid rs) = Some rs ->
     SoftwareComponent.get_port_by_uid rs (Port.uid rp) = Some rp ->
     In (rs, rp) (Project.get_compatible_ports_for_connection p pp) ->
     (fst (Project.validate_connection p (SoftwareComponent.uid ps) (Port.uid pp)
            (SoftwareComponent.uid rs) (Port.uid rp)) = true <->
      ~ exists c, In c (Project.connections p) /\
                  PortConnection.provider_port_uid c = Port.uid pp /\
                  PortConnection.requester_port_uid c = Port.uid rp)).
Proof.
  split.
  - intros a b c d H Hbd. unfold Project.validate_connection in H; cbv zeta in H.
    destruct (Project.get_component_by_uid p a) as [ps|] eqn:E1; [|discriminate].
    destruct (Project.get_component_by_uid p c) as [rs|] eqn:E2; [|discriminate].
    destruct (SoftwareComponent.get_port_by_uid ps b) as [pp|] eqn:E3; [|discriminate].
    destruct (SoftwareComponent.get_port_by_uid rs d) as [rp|] eqn:E4; [|discriminate].
    destruct (dir_eqb (Port.direction pp) PortDirection.PROVIDED) eqn:D1;
      [|discriminate].
    destruct (dir_eqb (Port.direction rp) PortDirection.REQUIRED) eqn:D2;
      [|discriminate].
    destruct (opt_str_eqb (Port.interface_uid pp) (Port.interface_uid rp)) eqn:I;
      [|discriminate].
    exists ps, pp, rs, rp; repeat split; auto.
    apply compatible_in.
    apply dir_eqb_true in D1, D2; apply opt_str_eqb_true in I.
    unfold Project.get_component_by_uid in E2.
    apply find_in in E2 as [Hrs _].
    unfold SoftwareComponent.get_port_by_uid in E3, E4.
    apply find_in in E4 as [Hrp Hd]; apply find_in in E3 as [_ Hb].
    apply String.eqb_eq in Hd, Hb.
    repeat split; auto. congruence.
  - intros ps pp rs rp H1 H2 H3 H4 Hin.
    apply compatible_in in Hin as (D1 & _ & _ & D2 & I & _).
    unfold Project.validate_connection; cbv zeta.
    rewrite H1, H3, H2, H4.
    rewrite (proj2 (dir_eqb_true _ _) D1), (proj2 (dir_eqb_true _ _) D2).
    rewrite (proj2 (opt_str_eqb_true _ _) (eq_sym I)); cbn.
    rewrite <- existsb_conn_true.
    destruct (existsb _ _); cbn; split; congruence.
Qed.

Lemma get_component_by_uid_set_connections p cs u :
  Project.get_component_by_uid (Project.set_connections p cs) u
  = Project.get_component_by_uid p u.
Proof. reflexivity. Qed.

(** X4: once [validate_connection] accepts four uids and the connection
    [_add_connection] builds from them is appended, validating them again
    reports ["Connection already exists"], and [get_connections_for_port]
    lists the new connection for both of its ports. *)
Theorem add_connection_then_duplicate (p : Project.t) (conn : PortConnection.t)
    (Hv : fst (Project.validate_connection p
                 (PortConnection.provider_swc_uid conn)
                 (PortConnection.provider_port_uid conn)
                 (PortConnection.requester_swc_uid conn)
                 (PortConnection.requester_port_uid conn)) = true) :
  Project.validate_connection (add_connection p conn)
    (PortConnection.provider_swc_uid conn) (PortConnection.provider_port_uid conn)
    (PortConnection.requester_swc_uid conn) (PortConnection.requester_port_uid conn)
  = (false, "Connection already exists") /\
  In conn (Project.get_connections_for_port (add_connection p conn)
             (PortConnection.provider_port_uid conn)) /\
  In conn (Project.get_connections_for_port (add_connection p conn)
             (PortConnection.requester_port_uid conn)).
Proof.
  split; [|split].
  - unfold Project.validate_connection in *; cbv zeta in *.
    unfold add_connection; rewrite !get_component_by_uid_set_connections.
    destruct (Project.get_component_by_uid p _) as [ps|]; [|discriminate].
    destruct (Project.get_component_by_uid p _) as [rs|]; [|discriminate].
    destruct (SoftwareComponent.get_port_by_uid ps _) as [pp|]; [|discriminate].
    destruct (SoftwareComponent.get_port_by_uid rs _) as [rp|]; [|discriminate].
    destruct (dir_eqb _ PortDirection.PROVIDED); [|discriminate].
    destruct (dir_eqb _ PortDirection.REQUIRED); [|discriminate].
    destruct (opt_str_eqb _ _); [|discriminate]. cbn.
    assert (E : existsb (fun c =>
              String.eqb (PortConnection.provider_port_uid c)
                         (PortConnection.provider_port_uid conn) &&
              String.eqb (PortConnection.requester_port_uid c)
                         (PortConnection.requester_port_uid conn))
              (Project.connections p ++ [conn])%list = true).
    { apply existsb_conn_true. exists conn; split; auto.
      apply in_or_app; right; left; reflexivity. }
    rewrite E; reflexivity.
  - apply filter_In; split.
    + apply in_or_app; right; left; reflexivity.
    + rewrite String.eqb_refl; reflexivity.
  - apply filter_In; split.
    + apply in_or_app; right; left; reflexivity.
    + rewrite String.eqb_refl, orb_true_r; reflexivity.
Qed.

(** A sender and a receiver over one interface, not yet connected. *)
Definition ex_pport : Port.t :=
  Port.mk "Pp_Speed" PortDirection.PROVIDED (Some "if1") "" "p1".
Definition ex_rport : Port.t :=
  Port.mk "Rp_Speed" PortDirection.REQUIRED (Some "if1") "" "r1".
Definition ex_sender : SoftwareComponent.t :=
  SoftwareComponent.mk "Sender" [ex_pport] [] "" "s1".
Definition ex_receiver : SoftwareComponent.t :=
  SoftwareComponent.mk "Receiver" [ex_rport] [] "" "s2".
Definition ex_iface : Interface.t :=
  Interface.mk "If_Speed" InterfaceType.SENDER_RECEIVER [] [] "" "if1".
Definition ex_project : Project.t :=
  Project.mk "P" "" [] [] [] [] [ex_iface] [ex_sender; ex_receiver] [].
Definition ex_conn : PortConnection.t :=
  PortConnection.mk "Conn_Speed" "s1" "p1" "s2" "r1" "" "c1".

Lemma add_connection_then_duplicate_witness :
  fst (Project.validate_connection ex_project "s1" "p1" "s2" "r1") = true /\
  Project.validate_connection (add_connection ex_project ex_conn)
    "s1" "p1" "s2" "r1" = (false, "Connection already exists").
Proof.
  split; [reflexivity|].
  exact (proj1 (add_connection_then_duplicate ex_project ex_conn eq_refl)).
Defined.

(** ** Deleting a port or an interface ([MainWindow._delete_item]) *)

Lemma list_remove_not_in {A} (eq_dec : forall x y : A, {x = y} + {x <> y}) x l :
  ~ In x l -> is_err (list_remove eq_dec x l) = true.
Proof.
  induction l as [|y l IH]; cbn; intros Hn; auto.
  destruct (eq_dec y x); [subst; tauto|].
  destruct (list_remove eq_dec x l); cbn in *; auto.
Qed.

Lemma nth_error_replace_nth {A} (l : list A) i j x :
  i < length l ->
  nth_error (replace_nth i x l) j = if Nat.eqb i j then Some x else nth_error l j.
Proof.
  revert i j; induction l as [|y l IH]; intros i j Hi; cbn in *; [lia|].
  destruct i as [|i], j as [|j]; cbn; auto.
  apply IH; lia.
Qed.

(** X5: deleting a port from the tree removes every connection that has
    its uid at either end and keeps every other connection; when the port
    is in its parent component, the first equal port is taken out of that
    component's ports and no other component changes; when it is not,
    [ports.remove] raises and the components are as they were, while the
    connections have already been filtered. *)
Theorem delete_port_spec (p : Project.t) (i : nat) (obj : Port.t) :
  Project.get_connections_for_port (snd (delete_port p i obj)) (Port.uid obj) = [] /\
  (forall c, In c (Project.connections p) ->
     PortConnection.provider_port_uid c <> Port.uid obj ->
     PortConnection.requester_port_uid c <> Port.uid obj ->
     In c (Project.connections (snd (delete_port p i obj)))) /\
  (forall swc pre post,
     nth_error (Project.components p) i = Some swc ->
     SoftwareComponent.ports swc = (pre ++ obj :: post)%list -> ~ In obj pre ->
     fst (delete_port p i obj) = Ok tt /\
     nth_error (Project.components (snd (delete_port p i obj))) i
       = Some (set_ports swc (pre ++ post)) /\
     forall j, j <> i ->
       nth_error (Project.components (snd (delete_port p i obj))) j
       = nth_error (Project.components p) j) /\
  (forall swc,
     nth_error (Project.components p) i = Some swc ->
     ~ In obj (SoftwareComponent.ports swc) ->
     is_err (fst (delete_port p i obj)) = true /\
     Project.components (snd (delete_port p i obj)) = Project.components p).
Proof.
  set (keep := fun c =>
         negb (String.eqb (PortConnection.provider_port_uid c) (Port.uid obj)) &&
         negb (String.eqb (PortConnection.requester_port_uid c) (Port.uid obj))).
  assert (Hconn : Project.connections (snd (delete_port p i obj))
                  = filter keep (Project.connections p)).
  { unfold delete_port; cbn.
    destruct (nth_error _ i) as [swc|]; [|reflexivity].
    destruct (list_remove _ _ _); reflexivity. }
  split; [|split; [|split]].
  - unfold Project.get_connections_for_port. rewrite Hconn. clear Hconn.
    induction (Project.connections p) as [|c l IH]; [reflexivity|].
    cbn [filter]; unfold keep at 1.
    destruct (String.eqb (PortConnection.provider_port_uid c) (Port.uid obj)) eqn:E1,
             (String.eqb (PortConnection.requester_port_uid c) (Port.uid obj)) eqn:E2;
      cbn; try exact IH. rewrite E1, E2; cbn; exact IH.
  - intros c Hc H1 H2. rewrite Hconn. apply filter_In; split; auto.
    unfold keep. apply String.eqb_neq in H1, H2. rewrite H1, H2; reflexivity.
  - intros swc pre post Hs Hp Hn.
    unfold delete_port; cbn. rewrite Hs, Hp, (list_remove_first _ _ _ _ Hn).
    cbn. assert (Hi : i < length (Project.components p))
      by (apply nth_error_Some; congruence).
    split; [reflexivity|split].
    + rewrite nth_error_replace_nth, Nat.eqb_refl by exact Hi; reflexivity.
    + intros j Hj. rewrite nth_error_replace_nth by exact Hi.
      assert (Hj' : Nat.eqb i j = false) by (apply Nat.eqb_neq; congruence).
      rewrite Hj'; reflexivity.
  - intros swc Hs Hn. unfold delete_port; cbn. rewrite Hs.
    pose proof (list_remove_not_in Port.eq_dec obj _ Hn) as He.
    destruct (list_remove _ _ _); [discriminate|split; reflexivity].
Qed.

Lemma list_remove_in {A} (eq_dec : forall x y : A, {x = y} + {x <> y}) x l :
  In x l -> exists l', list_remove eq_dec x l = Ok l' /\ S (length l') = length l.
Proof.
  induction l as [|y l IH]; cbn; [tauto|]. intros Hin.
  destruct (eq_dec y x) as [->|Hne]; [eauto|].
  destruct IH as (l' & -> & Hl); [destruct Hin; congruence|].
  exists (y :: l'); cbn; auto.
Qed.

(** X6: deleting an interface from the tree changes only the interface
    list: the components (with the [interface_uid] of their ports) and the
    connections stay as they were, so every [validate_connection] verdict
    is unchanged, also for ports that named the deleted interface.  The
    list loses one element when the interface is in it; otherwise
    [interfaces.remove] raises. *)
Theorem delete_interface_keeps_verdicts (p : Project.t) (obj : Interface.t) :
  (forall a b c d,
     Project.validate_connection (snd (delete_interface p obj)) a b c d
     = Project.validate_connection p a b c d) /\
  Project.components (snd (delete_interface p obj)) = Project.components p /\
  Project.connections (snd (delete_interface p obj)) = Project.connections p /\
  (In obj (Project.interfaces p) ->
   fst (delete_interface p obj) = Ok tt /\
   S (length (Project.interfaces (snd (delete_interface p obj))))
     = length (Project.interfaces p)) /\
  (~ In obj (Project.interfaces p) -> is_err (fst (delete_interface p obj)) = true).
Proof.
  unfold delete_interface.
  destruct (list_remove Interface_eq_dec obj (Project.interfaces p)) as [is|e] eqn:E;
    cbn; (split; [reflexivity|]); (split; [reflexivity|]); (split; [reflexivity|]).
  - split.
    + intros Hin. destruct (list_remove_in Interface_eq_dec obj _ Hin) as (l' & E' & Hl).
      rewrite E in E'; injection E' as ->; auto.
    + intros Hn. pose proof (list_remove_not_in Interface_eq_dec obj _ Hn) as H.
      rewrite E in H; discriminate.
  - split; [|reflexivity].
    intros Hin. destruct (list_remove_in Interface_eq_dec obj _ Hin) as (l' & E' & _).
    congruence.
Qed.

(** ** The multi-file codecs *)

Lemma ModuleReference_roundtrip r :
  ModuleReference.from_dict (ModuleReference.to_dict r) = Ok r.
Proof. destruct r; reflexivity. Qed.

Lemma MasterProject_roundtrip u m :
  MasterProject.from_dict u (MasterProject.to_dict m) = Ok m.
Proof.
  destruct m; unfold MasterProject.from_dict, MasterProject.to_dict,
    Project.list_field; cbn -[mapM map].
  rewrite mapM_map_roundtrip by apply ModuleReference_roundtrip. cbn -[mapM map].
  rewrite mapM_map_roundtrip by apply PortConnection_roundtrip.
  reflexivity.
Qed.

Lemma Module_roundtrip u m : Module_.from_dict u (Module_.to_dict m) = Ok m.
Proof.
  destruct m; unfold Module_.from_dict, Module_.to_dict, Project.list_field.
  cbn -[mapM map].
  rewrite mapM_map_roundtrip by apply CompuMethod_roundtrip. cbn -[mapM map].
  rewrite mapM_map_roundtrip by apply ApplicationDataType_roundtrip.
  cbn -[mapM map].
  rewrite mapM_map_roundtrip by apply ImplementationDataType_roundtrip.
  cbn -[mapM map].
  rewrite mapM_map_roundtrip by apply DataTypeMapping_roundtrip.
  cbn -[mapM map].
  rewrite mapM_map_roundtrip by apply Interface_roundtrip. cbn -[mapM map].
  rewrite mapM_map_roundtrip by apply SoftwareComponent_roundtrip.
  cbn -[mapM map].
  rewrite mapM_map_roundtrip by apply PortConnection_roundtrip.
  reflexivity.
Qed.

(** X7: decoding the dict of a module, or of a master project with its
    module references and global connections, gives back the same value. *)
Theorem multifile_dict_roundtrip (new_uid : string) (m : Module_.t)
    (mp : MasterProject.t) :
  Module_.from_dict new_uid (Module_.to_dict m) = Ok m /\
  MasterProject.from_dict new_uid (MasterProject.to_dict mp) = Ok mp.
Proof. split; [apply Module_roundtrip | apply MasterProject_roundtrip]. Qed.

(** X8: [ModuleReference.from_dict] requires ["path"] (a [KeyError]
    otherwise); from a dict with only a path it takes [Path(path).stem]
    as the name (so ["modules/"] gives ["modules"]), an empty description
    and [enabled = True]. *)
Theorem ModuleReference_from_dict_defaults (d : dict) (p : string) :
  (dlookup "path" d = None ->
   ModuleReference.from_dict (VDict d) = Err (KeyError "path")) /\
  ModuleReference.from_dict (VDict [("path", VStr p)])
    = Ok (ModuleReference.mk p (path_stem p) "" true) /\
  ModuleReference.from_dict (VDict [("path", VStr "modules/swc_sensor.yaml")])
    = Ok (ModuleReference.mk "modules/swc_sensor.yaml" "swc_sensor" "" true) /\
  ModuleReference.from_dict (VDict [("path", VStr "modules/")])
    = Ok (ModuleReference.mk "modules/" "modules" "" true).
Proof.
  split; [|split; [|split]].
  - intros H. unfold ModuleReference.from_dict, dindex; cbn. rewrite H; reflexivity.
  - reflexivity.
  - vm_compute; reflexivity.
  - vm_compute; reflexivity.
Qed.

(** The keys [Project.from_dict] and [Module.from_dict] read. *)
Definition entity_list_keys : list string :=
  ["name"; "description"; "compu_methods"; "application_data_types";
   "implementation_data_types"; "data_type_mappings"; "interfaces";
   "components"; "connections"].

(** X9: [Project.from_dict] and [Module.from_dict] read only their nine
    keys: two documents that agree on those keys decode to the same result
    (other keys are ignored, wherever they appear). *)
Theorem from_dict_reads_known_keys (new_uid : string) (d d' : dict)
    (H : forall k, In k entity_list_keys -> dlookup k d = dlookup k d') :
  Project.from_dict new_uid (VDict d) = Project.from_dict new_uid (VDict d') /\
  Module_.from_dict new_uid (VDict d) = Module_.from_dict new_uid (VDict d').
Proof.
  unfold Project.from_dict, Module_.from_dict, Project.list_field, dget; cbn [as_dict bind].
  repeat match goal with
  | |- context [dlookup ?k d] =>
      rewrite (H k ltac:(cbn; tauto))
  end.
  split; reflexivity.
Qed.

Lemma from_dict_reads_known_keys_witness :
  Project.from_dict "u0"
    (VDict [("name", VStr "P"); ("format_version", VInt 2)])
  = Project.from_dict "u0" (VDict [("name", VStr "P")]).
Proof.
  refine (proj1 (from_dict_reads_known_keys "u0" _ _ _)).
  intros k Hk; cbn in Hk.
  repeat destruct Hk as [<-|Hk]; try reflexivity; contradiction.
Defined.

(** ** Loaded modules and their paths *)

Lemma dict_get_set_eq {A} k (v : A) d : dict_get k (dict_set k v d) = Some v.
Proof.
  induction d as [|[k' v'] d IH]; cbn; [rewrite String.eqb_refl; reflexivity|].
  destruct (String.eqb k k') eqn:E; cbn; [rewrite String.eqb_refl; reflexivity|].
  rewrite E; exact IH.
Qed.

Lemma dict_get_set_neq {A} k k' (v : A) d :
  k <> k' -> dict_get k' (dict_set k v d) = dict_get k' d.
Proof.
  intros Hne; induction d as [|[k0 v0] d IH]; cbn.
  - destruct (String.eqb k' k) eqn:E; auto. apply String.eqb_eq in E; congruence.
  - destruct (String.eqb k k0) eqn:E; cbn.
    + apply String.eqb_eq in E; subst k0.
      destruct (String.eqb k' k) eqn:E'; auto. apply String.eqb_eq in E'; congruence.
    + destruct (String.eqb k' k0); auto.
Qed.

Lemma dict_get_set_some {A} k q (v : A) d :
  dict_get q d <> None -> dict_get q (dict_set k v d) <> None.
Proof.
  destruct (string_dec k q) as [->|Hne].
  - rewrite dict_get_set_eq; discriminate.
  - rewrite dict_get_set_neq by exact Hne; auto.
Qed.

Lemma in_dict_set {A} k (v : A) d x :
  In x (dict_set k v d) -> x = (k, v) \/ In x d.
Proof.
  induction d as [|[k' v'] d IH]; cbn; [intuition|].
  destruct (String.eqb k k'); cbn; intuition.
Qed.

Lemma dict_get_in {A} k (d : list (string * A)) v :
  dict_get k d = Some v -> In (k, v) d.
Proof.
  induction d as [|[k' v'] d IH]; cbn; [discriminate|].
  destruct (String.eqb k k') eqn:E; auto.
  intros H; injection H as <-; apply String.eqb_eq in E; subst; auto.
Qed.

Lemma dict_get_not_in {A} k (d : list (string * A)) :
  ~ In k (map fst d) -> dict_get k d = None.
Proof.
  induction d as [|[k' v'] d IH]; cbn; auto. intros Hn.
  destruct (String.eqb k k') eqn:E; [apply String.eqb_eq in E; subst; tauto|].
  apply IH; tauto.
Qed.

Lemma dict_del_get_nodup {A} k (d d' : list (string * A)) :
  NoDup (map fst d) -> dict_del k d = Ok d' -> dict_get k d' = None.
Proof.
  revert d'; induction d as [|[k' v'] d IH]; intros d' Hnd; cbn; [discriminate|].
  inversion Hnd as [|? ? Hn Hnd']; subst.
  destruct (String.eqb k k') eqn:E.
  - intros H; injection H as <-. apply String.eqb_eq in E; subst.
    apply dict_get_not_in; exact Hn.
  - destruct (dict_del k d) as [r|] eqn:Ed; cbn; [|discriminate].
    intros H; injection H as <-; cbn. rewrite E. apply IH; auto.
Qed.

(** X10: when [load_module] succeeds it stores the module it returns under
    the module's path and records the path under the module's name, so
    [get_module_by_name] finds it; with no name or an empty name the
    module is the decoded file as it is, and with a non-empty name it
    carries that name. *)
Theorem load_module_stores (new_uid p : string) (n : option string) (st : MFP)
    (m : Module_.t) (st' : MFP)
    (H : load_module new_uid p n st = (Ok m, st')) :
  dict_get p (modules st') = Some m /\
  dict_get (Module_.name m) (module_paths st') = Some p /\
  get_module_by_name st' (Module_.name m) = Ok (Some m) /\
  ((n = None \/ n = Some "") -> module_decode new_uid st p = Ok m) /\
  (forall x, n = Some x -> x <> "" -> Module_.name m = x).
Proof.
  unfold load_module, module_decode in *.
  destruct (read_yaml st p) as [v|]; [|discriminate]. cbn.
  destruct (Module_.from_dict new_uid v) as [m0|]; [|discriminate].
  injection H as <- <-; cbn.
  rewrite !dict_get_set_eq. repeat split; auto.
  - unfold get_module_by_name; cbn. rewrite !dict_get_set_eq; reflexivity.
  - intros [-> | ->]; reflexivity.
  - intros x -> Hx. apply String.eqb_neq in Hx; rewrite Hx; reflexivity.
Qed.

Lemma load_module_stores_witness :
  get_module_by_name
    (snd (load_module "u0" "/p/good.yaml" None
            (new_project "New Project" fs_bad_then_good))) "Good"
  = Ok (Some (Module_.mk "Good" "" [] [] [] [] [] [swc_b] [])).
Proof.
  exact (proj1 (proj2 (proj2 (load_module_stores "u0" "/p/good.yaml" None
           (new_project "New Project" fs_bad_then_good)
           (Module_.mk "Good" "" [] [] [] [] [] [swc_b] [])
           (snd (load_module "u0" "/p/good.yaml" None
                   (new_project "New Project" fs_bad_then_good)))
           ltac:(vm_compute; reflexivity))))).
Defined.

(** Every path recorded in [module_paths] has a loaded module. *)
Definition paths_ok (st : MFP) : Prop :=
  forall n p, In (n, p) (module_paths st) -> dict_get p (modules st) <> None.

Lemma paths_ok_load_module u p n st :
  paths_ok st -> paths_ok (snd (load_module u p n st)).
Proof.
  unfold load_module; intros H.
  destruct (read_yaml st p) as [v|]; cbn; [|exact H].
  destruct (Module_.from_dict u v) as [m|]; cbn; [|exact H].
  intros n' q Hin; cbn in *.
  apply in_dict_set in Hin as [Heq|Hin].
  - injection Heq as _ ->. rewrite dict_get_set_eq; discriminate.
  - apply dict_get_set_some, (H n'), Hin.
Qed.

Lemma paths_ok_print st s : paths_ok st -> paths_ok (print st s).
Proof. auto. Qed.

Lemma paths_ok_load_refs u base rs st :
  paths_ok st -> paths_ok (snd (load_refs u base rs st)).
Proof.
  revert st; induction rs as [|r rs IH]; intros st H; cbn; auto.
  destruct (ModuleReference.enabled r); [|apply IH; auto].
  destruct (path_exists st _); [|apply IH; auto].
  pose proof (paths_ok_load_module u (path_join base (ModuleReference.path r))
                (Some (ModuleReference.name r)) st H) as H'.
  destruct (load_module u _ _ st) as [[m|e] st']; cbn in *; auto.
Qed.

Lemma get_module_by_name_ok st n :
  paths_ok st -> is_err (get_module_by_name st n) = false.
Proof.
  unfold get_module_by_name; intros H.
  destruct (dict_get n (module_paths st)) as [p|] eqn:E; auto.
  apply dict_get_in in E. specialize (H _ _ E).
  destruct (dict_get p (modules st)); [reflexivity|congruence].
Qed.

(** Two names for one module file, then the first name removed. *)
Definition fs_one_module : list (string * FileContent) :=
  [("/p/a.yaml", Yaml good_module_doc)].
Definition st_two_names : MFP :=
  snd (load_module "u0" "/p/a.yaml" (Some "B")
         (snd (load_module "u0" "/p/a.yaml" (Some "A")
                 (new_project "New Project" fs_one_module)))).

(** X11: every path recorded under a module name has a loaded module after
    [new_project], and [load_module], [add_module] and [load_master]
    (also when they raise) keep it so; while it holds
    [get_module_by_name] never raises.  [remove_module] does not keep it:
    once one file is loaded under two names, removing one name unloads
    the file while the other name still points to it, and
    [get_module_by_name] on that name raises [KeyError]. *)
Theorem module_paths_consistency :
  (forall name files, paths_ok (new_project name files)) /\
  (forall u p n st, paths_ok st -> paths_ok (snd (load_module u p n st))) /\
  (forall m rp st, paths_ok st -> paths_ok (snd (add_module m rp st))) /\
  (forall u mpath st, paths_ok st -> paths_ok (snd (load_master u mpath st))) /\
  (forall st n, paths_ok st -> is_err (get_module_by_name st n) = false) /\
  (paths_ok st_two_names /\
   fst (remove_module "A" false st_two_names) = Ok tt /\
   get_module_by_name (snd (remove_module "A" false st_two_names)) "B"
     = Err (KeyError "/p/a.yaml")).
Proof.
  split; [|split; [|split; [|split; [|split]]]].
  - intros name files n p Hin; destruct Hin.
  - apply paths_ok_load_module.
  - intros m rp st H. unfold add_module.
    destruct (master_path st) as [mp|]; cbn; [|exact H].
    intros n' q Hin; cbn in *.
    apply in_dict_set in Hin as [Heq|Hin].
    + injection Heq as _ ->. rewrite dict_get_set_eq; discriminate.
    + apply dict_get_set_some, (H n'), Hin.
  - intros u mpath st H. unfold load_master.
    destruct (read_yaml st mpath) as [v|]; cbn; [|exact H].
    destruct (MasterProject.from_dict u v) as [m|]; cbn; [|exact H].
    assert (H0 : paths_ok (after_master_reset st mpath m))
      by (intros n p Hin; destruct Hin).
    pose proof (paths_ok_load_refs u (path_parent mpath) (MasterProject.modules m)
                  _ H0) as H1.
    unfold after_master_reset in H1.
    destruct (load_refs _ _ _ _) as [[[]|e] s] eqn:E; cbn in *; auto.
  - apply get_module_by_name_ok.
  - split; [|split].
    + intros n p Hin. vm_compute in Hin.
      destruct Hin as [Hin|[Hin|[]]]; injection Hin as _ <-; vm_compute; discriminate.
    + vm_compute; reflexivity.
    + vm_compute; reflexivity.
Qed.

(** X12: when [remove_module] completes, the master keeps exactly its
    references with another name, and [get_module_by_name] no longer finds
    the name (module names recorded once each). *)
Theorem remove_module_forgets (n : string) (d : bool) (st st' : MFP)
    (Hnd : NoDup (map fst (module_paths st)))
    (H : remove_module n d st = (Ok tt, st')) :
  (forall r, In r (MasterProject.modules (master st')) <->
             In r (MasterProject.modules (master st)) /\ ModuleReference.name r <> n) /\
  get_module_by_name st' n = Ok None.
Proof.
  assert (Href : forall st0,
    MasterProject.modules (master st0) =
      filter (fun r => negb (String.eqb (ModuleReference.name r) n))
             (MasterProject.modules (master st)) ->
    forall r, In r (MasterProject.modules (master st0)) <->
              In r (MasterProject.modules (master st)) /\ ModuleReference.name r <> n).
  { intros st0 -> r. rewrite filter_In, negb_true_iff, String.eqb_neq. tauto. }
  unfold remove_module in H; cbn in H.
  destruct (dict_get n (module_paths st)) as [path|] eqn:E.
  - destruct (dict_del path (modules st)) as [ms|]; [|discriminate]; cbn in H.
    destruct (dict_del n (module_paths st)) as [mp|] eqn:E3; [|discriminate].
    injection H as <-.
    match goal with |- context [if ?c then _ else _] => destruct c end;
      (split; [apply Href; reflexivity|]);
      unfold get_module_by_name; cbn;
      rewrite (dict_del_get_nodup _ _ _ Hnd E3); reflexivity.
  - injection H as <-. split; [apply Href; reflexivity|].
    unfold get_module_by_name; cbn; rewrite E; reflexivity.
Qed.

Lemma remove_module_forgets_witness :
  get_module_by_name
    (snd (remove_module "Good" false
            (snd (load_module "u0" "/p/good.yaml" None
                    (new_project "New Project" fs_bad_then_good))))) "Good"
  = Ok None.
Proof.
  exact (proj2 (remove_module_forgets "Good" false
    (snd (load_module "u0" "/p/good.yaml" None
            (new_project "New Project" fs_bad_then_good)))
    (snd (remove_module "Good" false
            (snd (load_module "u0" "/p/good.yaml" None
                    (new_project "New Project" fs_bad_then_good)))))
    ltac:(vm_compute; repeat constructor; intros [])
    ltac:(vm_compute; reflexivity))).
Defined.

Lemma read_yaml_write_eq st p v : read_yaml (write_yaml st p v) p = Ok v.
Proof. unfold read_yaml, write_yaml; cbn; rewrite dict_get_set_eq; reflexivity. Qed.

(** X13: [add_module] raises [ValueError] and changes nothing while the
    master has no path; otherwise it appends an enabled reference to the
    master, [get_module_by_name] finds the module under its name, and
    loading the file it wrote gives back the same module. *)
Theorem add_module_spec (new_uid : string) (m : Module_.t) (rp : string)
    (st : MFP) :
  (master_path st = None ->
   add_module m rp st = (Err (ValueError "Save master project first"), st)) /\
  (forall mp, master_path st = Some mp ->
   fst (add_module m rp st) = Ok tt /\
   MasterProject.modules (master (snd (add_module m rp st)))
     = (MasterProject.modules (master st)
        ++ [ModuleReference.mk rp (Module_.name m) (Module_.description m) true])%list /\
   get_module_by_name (snd (add_module m rp st)) (Module_.name m) = Ok (Some m) /\
   fst (load_module new_uid (path_join (path_parent mp) rp) None
          (snd (add_module m rp st))) = Ok m).
Proof.
  split.
  - intros H; unfold add_module; rewrite H; reflexivity.
  - intros mp H; unfold add_module; rewrite H; cbn.
    split; [reflexivity|split; [reflexivity|split]].
    + unfold get_module_by_name; cbn. rewrite !dict_get_set_eq; reflexivity.
    + unfold load_module, read_yaml; cbn -[Module_.from_dict Module_.to_dict].
      rewrite dict_get_set_eq; cbn -[Module_.from_dict Module_.to_dict].
      rewrite Module_roundtrip; reflexivity.
Qed.

(** X14: [save_module] raises [ValueError] for a name it does not know and
    changes nothing; for a recorded name whose module is loaded it writes
    the file, which loads back as the same module, and changes nothing but
    the files. *)
Theorem save_module_spec (new_uid n : string) (st : MFP) :
  (dict_get n (module_paths st) = None ->
   save_module n st = (Err (ValueError ("Unknown module: " ++ n)), st)) /\
  (forall p m, dict_get n (module_paths st) = Some p ->
   dict_get p (modules st) = Some m ->
   fst (save_module n st) = Ok tt /\
   module_decode new_uid (snd (save_module n st)) p = Ok m /\
   snd (save_module n st) = set_fs st (fs (snd (save_module n st)))).
Proof.
  split.
  - intros H; unfold save_module; rewrite H; reflexivity.
  - intros p m H1 H2; unfold save_module; rewrite H1, H2; cbn.
    split; [reflexivity|split; [|reflexivity]].
    unfold module_decode; rewrite read_yaml_write_eq; cbn.
    apply Module_roundtrip.
Qed.

Lemma save_module_files_spec mps st :
  (forall n p, In (n, p) mps -> dict_get p (modules st) <> None) ->
  exists st',
    save_module_files mps st = (Ok tt, st') /\
    st' = set_fs st (fs st') /\
    (forall n p m, In (n, p) mps -> dict_get p (modules st) = Some m ->
       dict_get p (fs st') = Some (Yaml (Module_.to_dict m))) /\
    (forall q, ~ In q (map snd mps) -> dict_get q (fs st') = dict_get q (fs st)).
Proof.
  revert st; induction mps as [|[n0 p0] mps IH]; intros st H; cbn.
  - exists st; split; [reflexivity|split; [destruct st; reflexivity|]].
    split; [intros n p m []|auto].
  - destruct (dict_get p0 (modules st)) as [m0|] eqn:E0;
      [|exfalso; apply (H n0 p0); [left; reflexivity|exact E0]].
    assert (H' : forall n p, In (n, p) mps ->
              dict_get p (modules (write_yaml st p0 (Module_.to_dict m0))) <> None)
      by (intros n p Hin; apply (H n p); right; exact Hin).
    destruct (IH _ H') as (st' & Hs & Hst & Hw & Hf).
    exists st'; rewrite Hs; split; [reflexivity|].
    split; [rewrite Hst; reflexivity|split].
    + intros n p m [Heq|Hin] Hm.
      * injection Heq as <- <-. rewrite E0 in Hm; injection Hm as ->.
        destruct (in_dec string_dec p0 (map snd mps)) as [Hin|Hn].
        -- apply in_map_iff in Hin as ([n' p'] & Hp & Hin); cbn in Hp; subst p'.
           apply (Hw n'); [exact Hin|exact E0].
        -- rewrite Hf by exact Hn. unfold write_yaml; cbn.
           apply dict_get_set_eq.
      * apply (Hw n); [exact Hin|exact Hm].
    + intros q Hq. cbn in Hq. rewrite Hf by tauto. unfold write_yaml; cbn.
      apply dict_get_set_neq; tauto.
Qed.

(** X15: [save_multifile_project] raises [ValueError] and changes nothing
    without a master path; with one, and every recorded module path
    loaded, it completes, the master file loads back as the master, and
    every module file other than the master's path loads back as its
    module; nothing but the files changes. *)
Theorem save_multifile_project_spec (new_uid : string) (st : MFP) :
  (master_path st = None ->
   save_multifile_project st = (Err (ValueError "Master path not set"), st)) /\
  (forall mp, master_path st = Some mp -> paths_ok st ->
   fst (save_multifile_project st) = Ok tt /\
   snd (save_multifile_project st) = set_fs st (fs (snd (save_multifile_project st))) /\
   (v <- read_yaml (snd (save_multifile_project st)) mp ;;
    MasterProject.from_dict new_uid v) = Ok (master st) /\
   (forall n p m, dict_get n (module_paths st) = Some p ->
      dict_get p (modules st) = Some m -> p <> mp ->
      module_decode new_uid (snd (save_multifile_project st)) p = Ok m)).
Proof.
  split.
  - intros H; unfold save_multifile_project; rewrite H; reflexivity.
  - intros mp H Hok. unfold save_multifile_project; rewrite H.
    destruct (save_module_files_spec (module_paths st) st Hok)
      as (st' & Hs & Hst & Hw & _).
    rewrite Hs; cbn.
    assert (Hm : master st' = master st) by (rewrite Hst; reflexivity).
    rewrite Hm. split; [reflexivity|split; [|split]].
    + rewrite Hst at 1; reflexivity.
    + rewrite read_yaml_write_eq; cbn. apply MasterProject_roundtrip.
    + intros n p m Hn Hp Hne. unfold module_decode, read_yaml, write_yaml; cbn.
      rewrite dict_get_set_neq by congruence.
      rewrite (Hw n p m (dict_get_in _ _ _ Hn) Hp); cbn.
      apply Module_roundtrip.
Qed.

(* ------------------------------------------------------------------ *)
(** ** Which module holds an element *)

Lemma existsb_uid_iff {A} (f : A -> string) (l : list A) (u : string) :
  existsb (fun x => String.eqb (f x) u) l = true <-> exists x, In x l /\ f x = u.
Proof.
  rewrite existsb_exists; split; intros [x [Hin He]]; exists x;
    (split; [exact Hin|]); apply String.eqb_eq; exact He.
Qed.

Lemma module_has_uid_iff (m : Module_.t) (u : string) :
  module_has_uid m u = true <-> module_contains m u.
Proof.
  unfold module_has_uid, module_contains.
  rewrite !Bool.orb_true_iff.
  rewrite (existsb_uid_iff CompuMethod.uid), (existsb_uid_iff ApplicationDataType.uid),
    (existsb_uid_iff ImplementationDataType.uid), (existsb_uid_iff Interface.uid).
  rewrite existsb_exists.
  split.
  - intros [[[[H|H]|H]|H]|[swc [Hin Hs]]];
      [left; exact H|right; left; exact H|right; right; left; exact H
      |right; right; right; left; exact H|].
    right; right; right; right; exists swc; split; [exact Hin|].
    cbv beta in Hs; apply Bool.orb_true_iff in Hs.
    destruct Hs as [Hs|Hs];
      [left; apply String.eqb_eq; exact Hs|right; apply (existsb_uid_iff Port.uid); exact Hs].
  - intros [H|[H|[H|[H|[swc [Hin Hs]]]]]];
      [left; left; left; left; exact H|left; left; left; right; exact H
      |left; left; right; exact H|left; right; exact H|].
    right; exists swc; split; [exact Hin|]. cbv beta; apply Bool.orb_true_iff.
    destruct Hs as [Hs|Hs];
      [left; apply String.eqb_eq; exact Hs|right; apply (existsb_uid_iff Port.uid); exact Hs].
Qed.

(** X17: [find_element_module] returns [None] exactly when no loaded module
    contains the uid; otherwise it returns the [name] of the first loaded
    module (in the order of [self.modules]) that contains it. *)
Theorem find_element_module_spec (st : MFP) (u : string) :
  (find_element_module st u = None <->
   forall k m, In (k, m) (modules st) -> ~ module_contains m u) /\
  (forall n, find_element_module st u = Some n ->
   exists pre k m post,
     modules st = (pre ++ (k, m) :: post)%list /\ Module_.name m = n /\
     module_contains m u /\
     forall k' m', In (k', m') pre -> ~ module_contains m' u).
Proof.
  unfold find_element_module; induction (modules st) as [|[k0 m0] ms IH]; cbn.
  - split; [split; [intros _ k m []|reflexivity]|discriminate].
  - destruct (module_has_uid m0 u) eqn:E.
    + split.
      * split; [discriminate|].
        intros H; exfalso; apply (H k0 m0 (or_introl eq_refl)).
        apply module_has_uid_iff; exact E.
      * intros n Hn; injection Hn as <-.
        exists [], k0, m0, ms.
        split; [reflexivity|split; [reflexivity|split; [apply module_has_uid_iff; exact E|]]].
        intros k' m' [].
    + destruct IH as [IH1 IH2]. split.
      * rewrite IH1. split; intros H k m Hin.
        -- destruct Hin as [Heq|Hin].
           ++ injection Heq as <- <-. intros Hc.
              apply module_has_uid_iff in Hc; congruence.
           ++ exact (H k m Hin).
        -- exact (H k m (or_intror Hin)).
      * intros n Hn. destruct (IH2 n Hn) as (pre & k & m & post & Hms & Hname & Hc & Hpre).
        exists ((k0, m0) :: pre), k, m, post.
        split; [rewrite Hms; reflexivity|split; [exact Hname|split; [exact Hc|]]].
        intros k' m' [Heq|Hin].
        -- injection Heq as <- <-. intros Hc'.
           apply module_has_uid_iff in Hc'; congruence.
        -- exact (Hpre k' m' Hin).
Qed.

(* ------------------------------------------------------------------ *)
(** ** The files [generate_all] writes *)

Lemma str_length_app (a b : string) :
  String.length (a ++ b) = String.length a + String.length b.
Proof.
  induction a as [|c a IH]; cbn; [reflexivity|rewrite IH; reflexivity].
Qed.

Lemma str_app_cancel (a s1 s2 : string) : a ++ s1 = a ++ s2 -> s1 = s2.
Proof.
  induction a as [|c a IH]; cbn; [auto|]. intros H; injection H as H; auto.
Qed.

Lemma str_app_inv (a b s1 s2 : string) :
  String.length s1 = String.length s2 -> a ++ s1 = b ++ s2 -> a = b /\ s1 = s2.
Proof.
  revert b; induction a as [|c a IH]; intros [|c' b] Hl H; cbn in H.
  - auto.
  - exfalso; subst s1; cbn in Hl; rewrite str_length_app in Hl; lia.
  - exfalso; subst s2; cbn in Hl; rewrite str_length_app in Hl; lia.
  - injection H as -> H. destruct (IH b Hl H) as [-> ->]. auto.
Qed.

Lemma header_source_neq (out x y : string) :
  path_join out (x ++ ".h") <> path_join out (y ++ ".c").
Proof.
  unfold path_join; intros H.
  apply str_app_cancel, str_app_cancel in H.
  destruct (str_app_inv x y ".h" ".c" eq_refl H) as [_ H']; discriminate H'.
Qed.

Lemma rte_header_neq (out n : string) :
  path_join out ("Rte_" ++ n ++ ".h") <> path_join out (n ++ ".h").
Proof.
  unfold path_join; intros H; apply (f_equal String.length) in H.
  rewrite !str_length_app in H; cbn in H; lia.
Qed.

Lemma rte_source_neq (out n : string) :
  path_join out ("Rte_" ++ n ++ ".h") <> path_join out (n ++ ".c").
Proof.
  unfold path_join; intros H; apply (f_equal String.length) in H.
  rewrite !str_length_app in H; cbn in H; lia.
Qed.

Lemma generate_swc_files_eq rh rc rr (p : Project.t) (out : string)
    (swcs : list SoftwareComponent.t) (files : list (string * string)) :
  generate_swc_files rh rc rr p out swcs files =
  (flat_map (fun swc => [path_join out (SoftwareComponent.name swc ++ ".h");
                         path_join out (SoftwareComponent.name swc ++ ".c");
                         path_join out ("Rte_" ++ SoftwareComponent.name swc ++ ".h")])
     swcs,
   fold_left (fun fs swc =>
     dict_set (path_join out ("Rte_" ++ SoftwareComponent.name swc ++ ".h")) (rr swc p)
       (dict_set (path_join out (SoftwareComponent.name swc ++ ".c")) (rc swc p)
         (dict_set (path_join out (SoftwareComponent.name swc ++ ".h")) (rh swc p) fs)))
     swcs files).
Proof.
  revert files; induction swcs as [|swc rest IH]; intros files; [reflexivity|].
  cbn [generate_swc_files]. rewrite IH. reflexivity.
Qed.

Lemma generate_all_eq rs rt rh rc rr (p : Project.t) (out : string)
    (files : list (string * string)) :
  generate_all rs rt rh rc rr p out files =
  (path_join out "Std_Types.h" :: path_join out "Rte_Type.h" ::
     fst (generate_swc_files rh rc rr p out (Project.components p)
            (dict_set (path_join out "Rte_Type.h") (rt (Project.interfaces p))
               (dict_set (path_join out "Std_Types.h") rs files))),
   snd (generate_swc_files rh rc rr p out (Project.components p)
          (dict_set (path_join out "Rte_Type.h") (rt (Project.interfaces p))
             (dict_set (path_join out "Std_Types.h") rs files)))).
Proof.
  unfold generate_all. destruct (generate_swc_files _ _ _ _ _ _ _); reflexivity.
Qed.

Lemma generate_files_defined rh rc rr (p : Project.t) (out : string)
    (swcs : list SoftwareComponent.t) (fs : list (string * string)) (k : string) :
  In k (fst (generate_swc_files rh rc rr p out swcs fs)) \/ dict_get k fs <> None ->
  dict_get k (snd (generate_swc_files rh rc rr p out swcs fs)) <> None.
Proof.
  rewrite !generate_swc_files_eq; cbn [fst snd].
  revert fs; induction swcs as [|swc rest IH]; intros fs H; cbn [flat_map fold_left app] in *.
  - destruct H as [[]|H]; exact H.
  - apply IH.
    destruct H as [[<-|[<-|[<-|Hin]]]|H].
    + right. apply dict_get_set_some, dict_get_set_some. rewrite dict_get_set_eq; discriminate.
    + right. apply dict_get_set_some. rewrite dict_get_set_eq; discriminate.
    + right. rewrite dict_get_set_eq; discriminate.
    + left; exact Hin.
    + right. apply dict_get_set_some, dict_get_set_some, dict_get_set_some; exact H.
Qed.

Lemma generate_paths_perm (out : string) (swcs : list SoftwareComponent.t) :
  Permutation
    (flat_map (fun swc => [path_join out (SoftwareComponent.name swc ++ ".h");
                           path_join out (SoftwareComponent.name swc ++ ".c");
                           path_join out ("Rte_" ++ SoftwareComponent.name swc ++ ".h")])
       swcs)
    (app (map (fun x => path_join out (x ++ ".h")) (map SoftwareComponent.name swcs))
     (app (map (fun x => path_join out (x ++ ".h"))
             (map (fun n => "Rte_" ++ n) (map SoftwareComponent.name swcs)))
          (map (fun x => path_join out (x ++ ".c")) (map SoftwareComponent.name swcs)))).
Proof.
  induction swcs as [|swc rest IH]; [constructor|].
  cbn [flat_map map app].
  apply perm_skip.
  eapply perm_trans; [apply perm_swap|].
  apply Permutation_cons_app.
  rewrite app_assoc. apply Permutation_cons_app. rewrite <- app_assoc. exact IH.
Qed.

(** X18: [generate_all] returns [Std_Types.h], [Rte_Type.h] and then, for each
    component in order, [<name>.h], [<name>.c] and [Rte_<name>.h], all under
    the output directory; every returned path has a content in the written
    files. *)
Theorem generate_all_paths rs rt rh rc rr (p : Project.t) (out : string)
    (files : list (string * string)) :
  fst (generate_all rs rt rh rc rr p out files) =
    path_join out "Std_Types.h" :: path_join out "Rte_Type.h" ::
    flat_map (fun swc => [path_join out (SoftwareComponent.name swc ++ ".h");
                          path_join out (SoftwareComponent.name swc ++ ".c");
                          path_join out ("Rte_" ++ SoftwareComponent.name swc ++ ".h")])
      (Project.components p) /\
  forall k, In k (fst (generate_all rs rt rh rc rr p out files)) ->
    dict_get k (snd (generate_all rs rt rh rc rr p out files)) <> None.
Proof.
  rewrite generate_all_eq; cbn [fst snd]. split.
  - rewrite generate_swc_files_eq; reflexivity.
  - intros k Hk. apply generate_files_defined.
    destruct Hk as [<-|[<-|Hk]].
    + right. apply dict_get_set_some. rewrite dict_get_set_eq; discriminate.
    + right. rewrite dict_get_set_eq; discriminate.
    + left; exact Hk.
Qed.

(** X19: when two of the header stems [Std_Types], [Rte_Type], the
    component names and the names prefixed with [Rte_] coincide (two
    components with one name, a component named [Std_Types], [Rte_Type]
    or [Type], or components named [n] and [Rte_n]), two of the paths
    [generate_all] returns are equal, and the later [write_text]
    overwrites the earlier file: the returned paths are pairwise distinct
    only if those stems are. *)
Theorem generate_all_paths_distinct rs rt rh rc rr (p : Project.t) (out : string)
    (files : list (string * string)) :
  NoDup (fst (generate_all rs rt rh rc rr p out files)) ->
  NoDup ("Std_Types" :: "Rte_Type" ::
         app (map SoftwareComponent.name (Project.components p))
             (map (fun n => "Rte_" ++ n) (map SoftwareComponent.name (Project.components p)))).
Proof.
  rewrite generate_all_eq, generate_swc_files_eq; cbn [fst].
  set (ns := map SoftwareComponent.name (Project.components p)).
  set (H := "Std_Types" :: "Rte_Type" :: app ns (map (fun n => "Rte_" ++ n) ns)).
  assert (Hperm : Permutation
    (path_join out "Std_Types.h" :: path_join out "Rte_Type.h" ::
     flat_map (fun swc => [path_join out (SoftwareComponent.name swc ++ ".h");
                           path_join out (SoftwareComponent.name swc ++ ".c");
                           path_join out ("Rte_" ++ SoftwareComponent.name swc ++ ".h")])
       (Project.components p))
    (app (map (fun x => path_join out (x ++ ".h")) H)
         (map (fun x => path_join out (x ++ ".c")) ns))).
  { unfold H; cbn [map app]. apply perm_skip, perm_skip.
    rewrite map_app, <- app_assoc. apply generate_paths_perm. }
  intros Hnd.
  apply (Permutation_NoDup Hperm), NoDup_app_remove_r, NoDup_map_inv in Hnd.
  exact Hnd.
Qed.

Lemma generate_all_paths_distinct_witness :
  NoDup (fst (generate_all "std" (fun _ => "rte") (fun _ _ => "swc.h")
                (fun _ _ => "swc.c") (fun _ _ => "rte.h") ex_project "gen" [])) /\
  NoDup ["Std_Types"; "Rte_Type"; "Sender"; "Receiver"; "Rte_Sender"; "Rte_Receiver"].
Proof.
  assert (Hnd : NoDup (fst (generate_all "std" (fun _ => "rte") (fun _ _ => "swc.h")
                (fun _ _ => "swc.c") (fun _ _ => "rte.h") ex_project "gen" []))).
  { vm_compute; repeat constructor; vm_compute; intuition discriminate. }
  split; [exact Hnd|].
  exact (generate_all_paths_distinct "std" (fun _ => "rte") (fun _ _ => "swc.h")
           (fun _ _ => "swc.c") (fun _ _ => "rte.h") ex_project "gen" [] Hnd).
Defined.

(** X20: Files are written in order, so the last component's three files hold
    its own renderings whatever earlier writes went to the same paths (a
    last component named [Std_Types] replaces the standard types header). *)
Theorem generate_all_last_component_wins rs rt rh rc rr (p : Project.t)
    (out : string) (files : list (string * string))
    (pre : list SoftwareComponent.t) (swc : SoftwareComponent.t)
    (Hc : Project.components p = (pre ++ [swc])%list) :
  dict_get (path_join out (SoftwareComponent.name swc ++ ".h"))
    (snd (generate_all rs rt rh rc rr p out files)) = Some (rh swc p) /\
  dict_get (path_join out (SoftwareComponent.name swc ++ ".c"))
    (snd (generate_all rs rt rh rc rr p out files)) = Some (rc swc p) /\
  dict_get (path_join out ("Rte_" ++ SoftwareComponent.name swc ++ ".h"))
    (snd (generate_all rs rt rh rc rr p out files)) = Some (rr swc p).
Proof.
  rewrite generate_all_eq, generate_swc_files_eq, Hc, fold_left_app; cbn [snd fold_left].
  set (n := SoftwareComponent.name swc).
  split; [|split].
  - rewrite dict_get_set_neq by apply rte_header_neq.
    rewrite dict_get_set_neq by (intros E; exact (header_source_neq out n n (eq_sym E))).
    apply dict_get_set_eq.
  - rewrite dict_get_set_neq by apply rte_source_neq.
    apply dict_get_set_eq.
  - apply dict_get_set_eq.
Qed.

Definition ex_std_swc : SoftwareComponent.t :=
  SoftwareComponent.mk "Std_Types" [] [] "" "s3".
Definition ex_gen_project : Project.t :=
  Project.mk "P" "" [] [] [] [] [ex_iface] [ex_sender; ex_std_swc] [].

Lemma generate_all_last_component_wins_witness :
  dict_get "gen/Std_Types.h"
    (snd (generate_all "std" (fun _ => "rte") (fun _ _ => "swc.h") (fun _ _ => "swc.c")
            (fun _ _ => "rte.h") ex_gen_project "gen" [])) = Some "swc.h".
Proof.
  exact (proj1 (generate_all_last_component_wins "std" (fun _ => "rte")
    (fun _ _ => "swc.h") (fun _ _ => "swc.c") (fun _ _ => "rte.h")
    ex_gen_project "gen" [] [ex_sender] ex_std_swc eq_refl)).
Defined.
